(** * mbcj-hooks: the environment hook and the session hook

    A shallow embedding of [src/useEnv.js] and [src/useUser.js].

    - [Js] holds the fragment of the JavaScript value model the two hooks
      rely on: strings, numbers, JSON-shaped values, truthiness, property
      access, [ToString], [parseInt], [toLowerCase], [JSON.stringify].
    - [UseEnv] is [useEnv]: the record computed from [import.meta.env].
    - [UseUser] is [useUser]: the five [useState] slots, [localStorage],
      the console and the clock as one explicit world, every function of
      the hook as a computation in a state-and-exception monad.

    Modelling decisions, once and for all:
    - a string is a sequence of code units; the model keeps the code units
      below 256, so a string is a [string] of Rocq;
    - a number is an integer or NaN (fractions and infinities stay
      outside); the text of an integer beyond 2^53 is the host's;
    - a [useState] setter is modelled by the value the next render sees; one
      call of a hook function reads the slots of the render it was made in,
      and no function of the hook reads a slot after it has set one;
    - [jwtDecode], [JSON.parse], the numeric reading of a string and the
      text of a large number belong to the host; they are the fields of
      the class [Host]. *)

From Stdlib Require Import ZArith Ascii String List Bool Lia.
From stdpp Require Import base option strings pretty gmap.

Set Warnings "-register-all".

Local Open Scope string_scope.
Local Open Scope Z_scope.

(* ===================================================================== *)
(** ** The JavaScript fragment *)
(* ===================================================================== *)

Module Js.

(** Numbers: integers and NaN. *)
Inductive number : Type :=
| NaN
| Num (z : Z).

(** Values that JSON text or a missing property can produce. An object
    is the list of its own properties in the order they are enumerated. *)
Inductive value : Type :=
| VUndefined
| VNull
| VBool (b : bool)
| VNum (n : number)
| VStr (s : string)
| VArr (items : list value)
| VObj (props : list (string * value)).

(** What a computation ends with: a value, or a thrown error. *)
Inductive completion (A : Type) : Type :=
| Normal (a : A)
| Throw (error : string).
Arguments Normal {A} a.
Arguments Throw {A} error.

(** [typeof v]. *)
Definition typeof (v : value) : string :=
  match v with
  | VUndefined => "undefined"
  | VNull => "object"
  | VBool _ => "boolean"
  | VNum _ => "number"
  | VStr _ => "string"
  | VArr _ | VObj _ => "object"
  end.

(** Truthiness of a value, as [if (v)], [v ? a : b], [!v], [v || w] use it. *)
Definition truthy (v : value) : bool :=
  match v with
  | VUndefined | VNull => false
  | VBool b => b
  | VNum NaN => false
  | VNum (Num z) => negb (z =? 0)
  | VStr s => negb (String.eqb s "")
  | VArr _ | VObj _ => true
  end.

(** A string-or-null (what [localStorage.getItem] returns, what the
    token slot holds) seen as a value. *)
Definition of_nullable (o : option string) : value :=
  match o with
  | Some s => VStr s
  | None => VNull
  end.

(** A string-or-undefined (an entry of [import.meta.env]). *)
Definition of_optional (o : option string) : value :=
  match o with
  | Some s => VStr s
  | None => VUndefined
  end.

Fixpoint assoc (k : string) (props : list (string * value)) : option value :=
  match props with
  | [] => None
  | (k', v) :: rest => if String.eqb k' k then Some v else assoc k rest
  end.

Definition remove_key (k : string) (props : list (string * value))
  : list (string * value) :=
  List.filter (fun kv => negb (String.eqb (fst kv) k)) props.

(** [v.k] for a data key [k] (no built-in property of that name):
    a TypeError on undefined and null, the own property of an object,
    undefined everywhere else. *)
Definition get_prop (v : value) (k : string) : completion value :=
  match v with
  | VUndefined | VNull => Throw "TypeError"
  | VObj props => Normal (default VUndefined (assoc k props))
  | _ => Normal VUndefined
  end.

(** What the two hooks take from their host. *)
Class Host : Type := {
  (** [jwtDecode(token)] of jwt-decode on a string: the claims, or
      [None] when it throws InvalidTokenError. *)
  jwtDecode : string -> option value;
  (** [JSON.parse(text)]: the value, or [None] for a SyntaxError. *)
  JSON_parse : string -> option value;
  (** The number a string converts to in arithmetic. *)
  StringToNumber : string -> number;
  (** The text of an integer of magnitude above 2^53: the shortest
      digits that read back as the same double, in exponent form from
      1e21 on (as in 1e+21). *)
  large_number_text : Z -> string
}.

(** Integers up to 2^53 in magnitude are the ones every double holds
    exactly; their text is their decimal writing. *)
Definition safe_integer (z : Z) : bool := Z.abs z <=? 9007199254740992.

(** [Number.prototype.toString]: the text of a number. *)
Definition number_to_string `{Host} (n : number) : string :=
  match n with
  | NaN => "NaN"
  | Num z => if safe_integer z then pretty z else large_number_text z
  end.

Fixpoint join (sep : string) (parts : list string) : string :=
  match parts with
  | [] => ""
  | [p] => p
  | p :: rest => p +:+ sep +:+ join sep rest
  end.

(** [String(v)] / the conversion [localStorage.setItem] applies to its
    value. An array joins its items with commas, null and undefined items
    giving the empty string, and throws when an item does. An object
    parsed from JSON has no callable property: with an own property
    named toString the conversion finds no method to call and throws a
    TypeError; without one it is the text [object Object]. *)
Fixpoint ToString `{Host} (v : value) : completion string :=
  match v with
  | VUndefined => Normal "undefined"
  | VNull => Normal "null"
  | VBool true => Normal "true"
  | VBool false => Normal "false"
  | VNum n => Normal (number_to_string n)
  | VStr s => Normal s
  | VArr items =>
      let item (x : value) : completion string :=
        match x with
        | VUndefined | VNull => Normal ""
        | _ => ToString x
        end in
      (fix join_items (xs : list value) : completion string :=
         match xs with
         | [] => Normal ""
         | [x] => item x
         | x :: rest =>
             match item x with
             | Normal first =>
                 match join_items rest with
                 | Normal others => Normal (first +:+ "," +:+ others)
                 | Throw e => Throw e
                 end
             | Throw e => Throw e
             end
         end) items
  | VObj props =>
      match assoc "toString" props with
      | Some _ => Throw "TypeError"
      | None => Normal "[object Object]"
      end
  end.

(** Own enumerable properties copied by [{...v}]: the properties of an
    object, the indexed items of an array, the indexed code units of a
    string, nothing for the other primitives. *)
Fixpoint indexed {A} (mk : A -> value) (i : N) (xs : list A)
  : list (string * value) :=
  match xs with
  | [] => []
  | x :: rest => (pretty i, mk x) :: indexed mk (N.succ i) rest
  end.

Definition spread (v : value) : list (string * value) :=
  match v with
  | VObj props => props
  | VArr items => indexed (fun x => x) 0%N items
  | VStr s =>
      indexed (fun c => VStr (String c "")) 0%N (list_ascii_of_string s)
  | _ => []
  end.

(** [String.prototype.toLowerCase] on code units below 256: A-Z and the
    Latin-1 capitals (C0-D6, D8-DE) move up by 32. *)
Definition lower_char (c : ascii) : ascii :=
  let n := N_of_ascii c in
  if ((65 <=? n) && (n <=? 90)
      || (192 <=? n) && (n <=? 214)
      || (216 <=? n) && (n <=? 222))%N
  then ascii_of_N (n + 32)
  else c.

Fixpoint toLowerCase (s : string) : string :=
  match s with
  | EmptyString => EmptyString
  | String c rest => String (lower_char c) (toLowerCase rest)
  end.

(** White space and line terminators below 256, as [parseInt] skips. *)
Definition is_white (c : ascii) : bool :=
  let n := N_of_ascii c in
  ((9 <=? n) && (n <=? 13) || (n =? 32) || (n =? 160))%N.

Fixpoint skip_white (s : string) : string :=
  match s with
  | String c rest => if is_white c then skip_white rest else s
  | EmptyString => s
  end.

Definition digit_of (c : ascii) : option Z :=
  let n := N_of_ascii c in
  if ((48 <=? n) && (n <=? 57))%N then Some (Z.of_N n - 48) else None.

(** The longest prefix of decimal digits, read left to right. *)
Fixpoint digits (acc : option Z) (s : string) : option Z :=
  match s with
  | String c rest =>
      match digit_of c with
      | Some d => digits (Some (10 * default 0 acc + d)) rest
      | None => acc
      end
  | EmptyString => acc
  end.

(** The integer a double holds for a mathematical integer: itself up
    to 2^53 in magnitude, above that the nearest one with 53 significant
    bits, a tie going to the even one. (Runs of more than 308 digits,
    which read as Infinity, are outside the integers modelled.) *)
Definition nearest_double (z : Z) : Z :=
  if safe_integer z then z
  else
    let a := Z.abs z in
    let shift := Z.log2 a - 52 in
    let q := Z.shiftr a shift in
    let r := a - Z.shiftl q shift in
    let half := Z.shiftl 1 (shift - 1) in
    let q' := if (half <? r) || ((r =? half) && Z.odd q) then q + 1 else q in
    Z.sgn z * Z.shiftl q' shift.

(** [parseInt(s, 10)] of a string: leading white space, an optional
    sign, then decimal digits, read as the double nearest to their
    value; NaN when there is no digit. *)
Definition parseInt_string (s : string) : number :=
  let s := skip_white s in
  let '(sign, body) :=
    match s with
    | String "-"%char rest => (-1, rest)
    | String "+"%char rest => (1, rest)
    | _ => (1, s)
    end in
  match digits None body with
  | Some z => Num (nearest_double (sign * z))
  | None => NaN
  end.

(** [parseInt(item, 10)] of what [localStorage.getItem] returns: a
    string, or null, which is read as the string null. *)
Definition parseInt (item : option string) : number :=
  parseInt_string (default "null" item).

(** SameValueZero on numbers, the comparison of [Array.prototype.includes]. *)
Definition same_value_zero (a b : number) : bool :=
  match a, b with
  | NaN, NaN => true
  | Num x, Num y => x =? y
  | _, _ => false
  end.

Definition includes (xs : list number) (x : number) : bool :=
  List.existsb (same_value_zero x) xs.

(** [x * y] on numbers. *)
Definition mul (a b : number) : number :=
  match a, b with
  | Num x, Num y => Num (x * y)
  | _, _ => NaN
  end.

(** [TimeClip]: a time value is an integer number of milliseconds of
    magnitude at most 8.64e15; anything else is an invalid date. *)
Definition TimeClip (n : number) : number :=
  match n with
  | Num t => if Z.abs t <=? 8640000000000000 then Num t else NaN
  | NaN => NaN
  end.

(** [a >= b] on numbers: false as soon as one side is NaN. *)
Definition ge (a b : number) : bool :=
  match a, b with
  | Num x, Num y => y <=? x
  | _, _ => false
  end.

(** *** [JSON.stringify] *)

Definition hex_digit (n : N) : ascii :=
  match n with
  | 0 => "0" | 1 => "1" | 2 => "2" | 3 => "3" | 4 => "4" | 5 => "5"
  | 6 => "6" | 7 => "7" | 8 => "8" | 9 => "9" | 10 => "a" | 11 => "b"
  | 12 => "c" | 13 => "d" | 14 => "e" | _ => "f"
  end%char%N.

Definition double_quote : ascii := "034"%char.
Definition backslash : ascii := "092"%char.

(** One code unit inside a JSON string literal: the quote, the
    backslash and the control characters are escaped. *)
Definition quote_char (c : ascii) : string :=
  let n := N_of_ascii c in
  let esc (x : ascii) := String backslash (String x "") in
  if (n =? 34)%N then esc double_quote
  else if (n =? 92)%N then esc backslash
  else if (n =? 8)%N then esc "b"%char
  else if (n =? 12)%N then esc "f"%char
  else if (n =? 10)%N then esc "n"%char
  else if (n =? 13)%N then esc "r"%char
  else if (n =? 9)%N then esc "t"%char
  else if (n <? 32)%N then
    String backslash
      (String "u" (String "0" (String "0"
         (String (hex_digit (n / 16)) (String (hex_digit (n mod 16)) "")))))
  else String c "".

Fixpoint quote_body (s : string) : string :=
  match s with
  | EmptyString => ""
  | String c rest => quote_char c +:+ quote_body rest
  end.

Definition quote (s : string) : string :=
  String double_quote (quote_body s) +:+ String double_quote "".

(** The JSON text of a value. NaN prints as null; inside an array
    undefined prints as null; a property whose value is undefined is
    left out. *)
Fixpoint JSON_text `{Host} (v : value) : string :=
  match v with
  | VUndefined | VNull => "null"
  | VBool true => "true"
  | VBool false => "false"
  | VNum NaN => "null"
  | VNum (Num z) => number_to_string (Num z)
  | VStr s => quote s
  | VArr items => "[" +:+ join "," (List.map JSON_text items) +:+ "]"
  | VObj props =>
      let member :=
        fix member (ps : list (string * value)) : list string :=
          match ps with
          | [] => []
          | (_, VUndefined) :: rest => member rest
          | (k, x) :: rest => (quote k +:+ ":" +:+ JSON_text x) :: member rest
          end in
      "{" +:+ join "," (member props) +:+ "}"
  end.

(** [JSON.stringify(v)]: undefined for undefined, the text otherwise. *)
Definition JSON_stringify `{Host} (v : value) : value :=
  match v with
  | VUndefined => VUndefined
  | _ => VStr (JSON_text v)
  end.

End Js.

(* ===================================================================== *)
(** ** useEnv *)
(* ===================================================================== *)

Module UseEnv.
Import Js.

(** [import.meta.env]: the mode flag and the twelve entries the hook
    reads; an entry that is not defined is [None]. *)
Record ImportMetaEnv : Type := {
  DEV : bool;
  VITE_BASENAME_DEV : option string;
  VITE_BASE_URL_DEV : option string;
  VITE_URL_REDIRECT_DEV : option string;
  VITE_URL_OAUTH_DEV : option string;
  VITE_CLIENTE_ID_DEV : option string;
  VITE_TEST_DEV : option string;
  VITE_BASENAME : option string;
  VITE_BASE_URL : option string;
  VITE_URL_REDIRECT : option string;
  VITE_URL_OAUTH : option string;
  VITE_CLIENTE_ID : option string;
  VITE_TEST : option string
}.

(** The record [useEnv] returns. *)
Record EnvVars : Type := {
  BASENAME : option string;
  BASE_URL : option string;
  URL_REDIRECT : option string;
  URL_OAUTH : option string;
  CLIENTE_ID : option string;
  TEST : bool;
  ENV_LOADED : bool
}.

(** [(x || "")]: an undefined or empty entry gives the empty string. *)
Definition or_empty (x : option string) : string :=
  if truthy (of_optional x) then default "" x else "".

(** [(x || "").toLowerCase() === "true"]. *)
Definition test_flag (x : option string) : bool :=
  String.eqb (toLowerCase (or_empty x)) "true".

Definition useEnv (env : ImportMetaEnv) : EnvVars :=
  if DEV env then
    {| BASENAME := VITE_BASENAME_DEV env;
       BASE_URL := VITE_BASE_URL_DEV env;
       URL_REDIRECT := VITE_URL_REDIRECT_DEV env;
       URL_OAUTH := VITE_URL_OAUTH_DEV env;
       CLIENTE_ID := VITE_CLIENTE_ID_DEV env;
       TEST := test_flag (VITE_TEST_DEV env);
       ENV_LOADED := true |}
  else
    {| BASENAME := VITE_BASENAME env;
       BASE_URL := VITE_BASE_URL env;
       URL_REDIRECT := VITE_URL_REDIRECT env;
       URL_OAUTH := VITE_URL_OAUTH env;
       CLIENTE_ID := VITE_CLIENTE_ID env;
       TEST := test_flag (VITE_TEST env);
       ENV_LOADED := true |}.

(** The entry that feeds [TEST] in the mode [env] is in. *)
Definition test_entry (env : ImportMetaEnv) : option string :=
  if DEV env then VITE_TEST_DEV env else VITE_TEST env.

(** An environment with nothing defined but the two test entries. *)
Definition env_with_test (dev : bool) (t : option string) : ImportMetaEnv :=
  {| DEV := dev;
     VITE_BASENAME_DEV := None; VITE_BASE_URL_DEV := None;
     VITE_URL_REDIRECT_DEV := None; VITE_URL_OAUTH_DEV := None;
     VITE_CLIENTE_ID_DEV := None; VITE_TEST_DEV := t;
     VITE_BASENAME := None; VITE_BASE_URL := None;
     VITE_URL_REDIRECT := None; VITE_URL_OAUTH := None;
     VITE_CLIENTE_ID := None; VITE_TEST := t |}.

End UseEnv.

(* ===================================================================== *)
(** ** useUser *)
(* ===================================================================== *)

Module UseUser.
Import Js UseEnv.

(** [ToNumber v], the conversion [*] applies to its operands. An array
    or an object is first brought to a string, which can throw. *)
Definition ToNumber `{Host} (v : value) : completion number :=
  match v with
  | VUndefined => Normal NaN
  | VNull => Normal (Num 0)
  | VBool true => Normal (Num 1)
  | VBool false => Normal (Num 0)
  | VNum n => Normal n
  | VStr s => Normal (StringToNumber s)
  | VArr _ | VObj _ =>
      match ToString v with
      | Normal s => Normal (StringToNumber s)
      | Throw e => Throw e
      end
  end.

(** The state one instance of the hook works on: its five [useState]
    slots, and the parts of the page it touches. *)
Record World : Type := mkWorld {
  usuario : value;
  persona : value;
  tipoUsuarioId : value;
  logged : option bool;            (* [None] is null: not verified yet *)
  token : option string;
  localStorage : gmap string string;
  console : list string;           (* [console.error] lines, oldest first *)
  clock : Z                        (* the time value of [new Date()] *)
}.

(** The in-memory slots and the persisted entries, without the console
    and the clock. *)
Definition observable (w : World)
  : value * value * value * option bool * option string * gmap string string :=
  (usuario w, persona w, tipoUsuarioId w, logged w, token w, localStorage w).

(** The slots right after [useUser] is first called. *)
Definition initial (storage : gmap string string) (now : Z) : World :=
  mkWorld VNull VNull VNull None None storage [] now.

(** *** The monad: a world threaded through, and exceptions *)

Definition M (A : Type) : Type := World -> completion A * World.

#[export] Instance M_ret : MRet M :=
  fun A (a : A) (w : World) => (Normal a, w).

#[export] Instance M_bind : MBind M :=
  fun A B (f : A -> M B) (m : M A) (w : World) =>
    match m w with
    | (Normal a, w') => f a w'
    | (Throw e, w') => (Throw e, w')
    end.

Definition throw {A} (e : string) : M A := fun w => (Throw e, w).

(** [try { body } catch (error) { handler }]: what [body] did before it
    threw stays done. *)
Definition try_catch {A} (body : M A) (handler : string -> M A) : M A :=
  fun w =>
    match body w with
    | (Normal a, w') => (Normal a, w')
    | (Throw e, w') => handler e w'
    end.

Definition lift {A} (c : completion A) : M A := fun w => (c, w).

Definition get_world : M World := fun w => (Normal w, w).

Definition modify (f : World -> World) : M unit := fun w => (Normal tt, f w).

(** The result and the world a call leaves. *)
Definition result_of {A} (m : M A) (w : World) : completion A := fst (m w).
Definition world_after {A} (m : M A) (w : World) : World := snd (m w).

(** *** The setters of [useState] *)

Definition setUsuario (v : value) : M unit :=
  modify (fun w => mkWorld v (persona w) (tipoUsuarioId w) (logged w)
                     (token w) (localStorage w) (console w) (clock w)).
Definition setPersona (v : value) : M unit :=
  modify (fun w => mkWorld (usuario w) v (tipoUsuarioId w) (logged w)
                     (token w) (localStorage w) (console w) (clock w)).
Definition setTipoUsuarioId (v : value) : M unit :=
  modify (fun w => mkWorld (usuario w) (persona w) v (logged w)
                     (token w) (localStorage w) (console w) (clock w)).
Definition setLogged (b : option bool) : M unit :=
  modify (fun w => mkWorld (usuario w) (persona w) (tipoUsuarioId w) b
                     (token w) (localStorage w) (console w) (clock w)).
Definition setToken (t : option string) : M unit :=
  modify (fun w => mkWorld (usuario w) (persona w) (tipoUsuarioId w) (logged w)
                     t (localStorage w) (console w) (clock w)).

(** *** [localStorage], [console.error], [new Date()] *)

Definition with_storage (s : gmap string string) (w : World) : World :=
  mkWorld (usuario w) (persona w) (tipoUsuarioId w) (logged w)
    (token w) s (console w) (clock w).

Definition localStorage_getItem (k : string) : M (option string) :=
  fun w => (Normal (localStorage w !! k), w).
(** [localStorage.setItem(k, v)] stores the string of [v]; bringing [v]
    to a string can throw. *)
Definition localStorage_setItem `{Host} (k : string) (v : value) : M unit :=
  text ← lift (ToString v);
  modify (fun w => with_storage (<[k := text]> (localStorage w)) w).
Definition localStorage_clear : M unit :=
  modify (with_storage ∅).

Definition console_error (line : string) : M unit :=
  modify (fun w => mkWorld (usuario w) (persona w) (tipoUsuarioId w) (logged w)
                     (token w) (localStorage w) (console w ++ [line]) (clock w)).

Definition new_Date : M number := fun w => (Normal (Num (clock w)), w).

Section Hook.
Context `{Host} (env : ImportMetaEnv).

(** [const { BASENAME, TEST } = useEnv();] *)
Definition BASENAME_ : option string := BASENAME (useEnv env).
Definition TEST_ : bool := TEST (useEnv env).

(** The template literal [`${BASENAME}<suffix>`]; an undefined
    [BASENAME] prints as undefined. *)
Definition key (suffix : string) : string :=
  default "undefined" BASENAME_ +:+ suffix.

(** [jwtDecode(token)] on a string-or-null; jwt-decode refuses what is
    not a string. *)
Definition jwtDecode_call (t : option string) : M value :=
  match t with
  | Some s =>
      match jwtDecode s with
      | Some claims => mret claims
      | None => throw "InvalidTokenError"
      end
  | None => throw "InvalidTokenError"
  end.

(** [JSON.parse(item)] on a string-or-null; null is read as the text
    null. *)
Definition JSON_parse_call (item : option string) : M value :=
  match JSON_parse (default "null" item) with
  | Some v => mret v
  | None => throw "SyntaxError"
  end.

Definition getUsuarioFromStorage : M value :=
  usuarioData ← localStorage_getItem (key "_datos");
  if negb (truthy (of_nullable usuarioData)) then mret VNull
  else
    try_catch
      (JSON_parse_call usuarioData)
      (fun error =>
         console_error "Error parseando datos de usuario desde localStorage:";;
         localStorage_clear;;
         mret VNull).

Definition getUser (usuarioParam : value) : M unit :=
  datos ← (if truthy usuarioParam then mret usuarioParam
           else getUsuarioFromStorage);
  if truthy datos then
    personaData ← lift (get_prop datos "persona");
    let usuarioState := VObj (remove_key "persona" (spread datos)) in
    setPersona personaData;;
    setUsuario usuarioState
  else
    setPersona VNull;;
    setUsuario VNull.

Definition getTipoUsuario (tipo_usuario_id : value) : M value :=
  tipoUsuarioIdLocal ←
    (if truthy tipo_usuario_id then mret tipo_usuario_id
     else stored ← localStorage_getItem (key "_tipo_usuario_id");
          mret (of_nullable stored));
  setTipoUsuarioId tipoUsuarioIdLocal;;
  mret tipoUsuarioIdLocal.

Definition logout : M unit :=
  localStorage_clear;;
  setPersona VNull;;
  setUsuario VNull;;
  setTipoUsuarioId VNull;;
  setToken None;;
  setLogged (Some false).

(** [usuario === null]. *)
Definition is_null (v : value) : bool :=
  match v with VNull => true | _ => false end.

Definition login (token : string) (usuario : value) : M unit :=
  if negb (String.eqb (typeof usuario) "object") || is_null usuario then
    console_error "Intento de login con datos de usuario inválidos:"
  else
    try_catch
      (decoded ← jwtDecode_call (Some token);
       data ← lift (get_prop decoded "data");
       tipoUsuarioId ← lift (get_prop data "tipo_usuario_id");
       let usuarioData := if truthy data then data else usuario in
       localStorage_setItem (key "_token") (VStr token);;
       localStorage_setItem (key "_tipo_usuario_id") tipoUsuarioId;;
       localStorage_setItem (key "_datos") (JSON_stringify usuarioData);;
       setToken (Some token);;
       setLogged (Some true);;
       getUser usuarioData;;
       getTipoUsuario tipoUsuarioId;;
       mret tt)
      (fun error =>
         console_error "Error al decodificar el token en login:";;
         logout).

Definition getLocalData : M (option string) :=
  token ← localStorage_getItem (key "_token");
  tipoUsuarioId ← localStorage_getItem (key "_tipo_usuario_id");
  usuarioData ← getUsuarioFromStorage;
  if truthy (of_nullable token) && truthy (of_nullable tipoUsuarioId)
     && truthy usuarioData
  then
    getUser usuarioData;;
    getTipoUsuario (of_nullable tipoUsuarioId);;
    setToken token;;
    setLogged (Some true);;
    mret token
  else
    setUsuario VNull;;
    setPersona VNull;;
    setTipoUsuarioId VNull;;
    setToken None;;
    setLogged (Some false);;
    mret None.

(** The time value of [new Date(decoded.exp * 1000)]; there is none
    (NaN) when the date is invalid, and none when bringing [exp] to a
    number throws. *)
Definition expiry_time (exp : value) : number :=
  match ToNumber exp with
  | Normal n => TimeClip (mul n (Num 1000))
  | Throw _ => NaN
  end.

Definition verificarToken : M bool :=
  w ← get_world;
  if bool_decide (logged w = None) || negb (truthy (of_nullable (token w)))
  then mret false
  else
    try_catch
      (decoded ← jwtDecode_call (token w);
       e ← lift (get_prop decoded "exp");
       n ← lift (ToNumber e);
       let exp := TimeClip (mul n (Num 1000)) in
       today ← new_Date;
       mret (ge exp today))
      (fun error =>
         console_error "Error al verificar token:";;
         mret false).

Definition checkLogged (tiposUsuariosId : list number) : M bool :=
  if TEST_ then mret true
  else
    token ← localStorage_getItem (key "_token");
    if negb (truthy (of_nullable token)) then
      logout;;
      mret false
    else
      verificado ← verificarToken;
      if (verificado : bool) then
        currentTipoUsuarioId ← localStorage_getItem (key "_tipo_usuario_id");
        if (0 <? length tiposUsuariosId)%nat then
          mret (includes tiposUsuariosId
                  (parseInt currentTipoUsuarioId))
        else mret true
      else
        console_error "Token vencido o inválido";;
        logout;;
        mret false.

(** *** Reading the code's own conditions *)

(** The guard of [login]: [typeof usuario === 'object' && usuario !== null]. *)
Definition is_record (usuario : value) : bool :=
  String.eqb (typeof usuario) "object" && negb (is_null usuario).

(** What the lines of [login]'s [try] block that can throw compute when
    none of them does: [decoded.data], [decoded.data.tipo_usuario_id],
    and the string [setItem] stores for the latter. *)
Definition login_payload (token : string) : option (value * value * string) :=
  match jwtDecode token with
  | Some decoded =>
      match get_prop decoded "data" with
      | Normal data =>
          match get_prop data "tipo_usuario_id" with
          | Normal tipoUsuarioId =>
              match ToString tipoUsuarioId with
              | Normal text => Some (data, tipoUsuarioId, text)
              | Throw _ => None
              end
          | Throw _ => None
          end
      | Throw _ => None
      end
  | None => None
  end.

(** The three persisted entries, as [getLocalData] reads them. *)
Definition stored_token (w : World) : option string :=
  localStorage w !! key "_token".
Definition stored_tipo (w : World) : option string :=
  localStorage w !! key "_tipo_usuario_id".
Definition stored_datos (w : World) : option string :=
  localStorage w !! key "_datos".

(** A persisted entry counts for the hook when it is there and not the
    empty string. *)
Definition filled (o : option string) : bool := truthy (of_nullable o).

(** The token in the slot is decodable and its expiry, as a time value,
    is not before the clock. *)
Definition unexpired (w : World) : Prop :=
  exists t decoded e x,
    token w = Some t /\ jwtDecode t = Some decoded /\
    get_prop decoded "exp" = Normal e /\
    expiry_time e = Num x /\ clock w <= x.

(** The world [logout] leaves. *)
Definition logged_out (w : World) : World :=
  mkWorld VNull VNull VNull (Some false) None ∅ (console w) (clock w).

(** The world a call of [login] leaves when it gets past its guard and
    through its [try] block with [data], [tipoUsuarioId] and the string
    [text] of the latter in hand. *)
Definition logged_in (token : string) (usuario data tipoUsuarioId : value)
    (text : string) (w : World) : World :=
  let usuarioData := if truthy data then data else usuario in
  let storage :=
    <[key "_datos" := JSON_text usuarioData]>
      (<[key "_tipo_usuario_id" := text]>
         (<[key "_token" := token]> (localStorage w))) in
  mkWorld
    (VObj (remove_key "persona" (spread usuarioData)))
    (match get_prop usuarioData "persona" with
     | Normal p => p
     | Throw _ => VUndefined
     end)
    (if truthy tipoUsuarioId then tipoUsuarioId else VStr text)
    (Some true) (Some token) storage (console w) (clock w).

(** The slots [getLocalData] sets when an entry is missing. *)
Definition slots_cleared (w : World) : Prop :=
  usuario w = VNull /\ persona w = VNull /\ tipoUsuarioId w = VNull /\
  token w = None /\ logged w = Some false.

(** A token sits in the slot only while the instance is logged. *)
Definition coherent (w : World) : Prop :=
  logged w = Some true \/ token w = None.

(** *** Sequences of calls *)

Inductive call : Type :=
| Login (token : string) (usuario : value)
| Logout
| GetLocalData
| VerificarToken
| CheckLogged (tiposUsuariosId : list number).

Definition exec (c : call) (w : World) : World :=
  match c with
  | Login token usuario => world_after (login token usuario) w
  | Logout => world_after logout w
  | GetLocalData => world_after getLocalData w
  | VerificarToken => world_after verificarToken w
  | CheckLogged tiposUsuariosId => world_after (checkLogged tiposUsuariosId) w
  end.

(** Between two calls the page may rewrite [localStorage] (other code,
    other instances of the hook) and the clock moves. *)
Inductive event : Type :=
| Call (c : call)
| Outside (storage : gmap string string) (now : Z).

Definition step (e : event) (w : World) : World :=
  match e with
  | Call c => exec c w
  | Outside storage now =>
      mkWorld (usuario w) (persona w) (tipoUsuarioId w) (logged w)
        (token w) storage (console w) now
  end.

Definition run (events : list event) (w : World) : World :=
  fold_left (fun w e => step e w) events w.

(** The worlds an instance can be in. *)
Inductive reachable : World -> Prop :=
| reachable_initial storage now : reachable (initial storage now)
| reachable_step e w : reachable w -> reachable (step e w).

(** A call of [login] that gets past its guard and its decoding. *)
Definition successful_login (e : event) : Prop :=
  exists token usuario,
    e = Call (Login token usuario) /\
    is_record usuario = true /\ is_Some (login_payload token).

(** A call of [login] that gets past its guard and fails in its [try]. *)
Definition failed_login (e : event) : Prop :=
  exists token usuario,
    e = Call (Login token usuario) /\
    is_record usuario = true /\ login_payload token = None.

(** A call of [getLocalData] that returns a token. *)
Definition successful_load (e : event) (w : World) : Prop :=
  e = Call GetLocalData /\
  exists t, result_of getLocalData w = Normal (Some t).

(** A call of [checkLogged], outside test mode, that finds no token in
    storage or whose expiry check says no. *)
Definition failed_check (e : event) (w : World) : Prop :=
  exists tiposUsuariosId,
    e = Call (CheckLogged tiposUsuariosId) /\ TEST_ = false /\
    (filled (stored_token w) = false \/
     result_of verificarToken w = Normal false).

(** *** Further readings of the state *)

(** The four data slots are null. *)
Definition slots_null (w : World) : Prop :=
  usuario w = VNull /\ persona w = VNull /\ tipoUsuarioId w = VNull /\
  token w = None.

(** While logged, the token slot is the stored token and the two other
    entries are there. *)
Definition in_sync (w : World) : Prop :=
  logged w = Some true ->
  stored_token w = token w /\ is_Some (stored_tipo w) /\
  is_Some (stored_datos w).

(** One of the three keys of the hook. *)
Definition session_key (k : string) : Prop :=
  k = key "_token" \/ k = key "_tipo_usuario_id" \/ k = key "_datos".

Definition is_login (c : call) : bool :=
  match c with Login _ _ => true | _ => false end.

(** A sequence of calls with nothing from outside in between. *)
Definition run_calls (calls : list call) (w : World) : World :=
  run (List.map Call calls) w.

(** The same instance read at another time. *)
Definition at_time (now : Z) (w : World) : World :=
  mkWorld (usuario w) (persona w) (tipoUsuarioId w) (logged w) (token w)
    (localStorage w) (console w) now.

(** A new instance of the hook over the storage [w] leaves behind. *)
Definition remount (w : World) : World :=
  initial (localStorage w) (clock w).

End Hook.

End UseUser.

(* ===================================================================== *)
(** ** A concrete host, environment and tokens for the examples *)
(* ===================================================================== *)

Module Demo.
Import Js UseEnv UseUser.

(** Production mode, base name "app", test mode off. *)
Definition env : ImportMetaEnv :=
  {| DEV := false;
     VITE_BASENAME_DEV := None; VITE_BASE_URL_DEV := None;
     VITE_URL_REDIRECT_DEV := None; VITE_URL_OAUTH_DEV := None;
     VITE_CLIENTE_ID_DEV := None; VITE_TEST_DEV := None;
     VITE_BASENAME := Some "app"; VITE_BASE_URL := None;
     VITE_URL_REDIRECT := None; VITE_URL_OAUTH := None;
     VITE_CLIENTE_ID := None; VITE_TEST := Some "false" |}.

(** The same with test mode on. *)
Definition env_test : ImportMetaEnv :=
  {| DEV := false;
     VITE_BASENAME_DEV := None; VITE_BASE_URL_DEV := None;
     VITE_URL_REDIRECT_DEV := None; VITE_URL_OAUTH_DEV := None;
     VITE_CLIENTE_ID_DEV := None; VITE_TEST_DEV := None;
     VITE_BASENAME := Some "app"; VITE_BASE_URL := None;
     VITE_URL_REDIRECT := None; VITE_URL_OAUTH := None;
     VITE_CLIENTE_ID := None; VITE_TEST := Some "TRUE" |}.

(** The clock of the examples, in milliseconds. *)
Definition now : Z := 1700000000000.

(** User data carried by a token. *)
Definition datos : value :=
  VObj [("tipo_usuario_id", VNum (Num 2));
        ("nombre", VStr "Ana");
        ("persona", VObj [("dni", VStr "1")])].

(** Claims: a live token, an expired one, one without a data section. *)
Definition claims_ok : value :=
  VObj [("exp", VNum (Num 2000000000)); ("data", datos)].
Definition claims_old : value :=
  VObj [("exp", VNum (Num 1000000000)); ("data", datos)].
Definition claims_nodata : value :=
  VObj [("exp", VNum (Num 2000000000))].

(** Claims whose user-type id is an object with a property named
    toString, as the JSON text [{"toString":1}] parses to. *)
Definition claims_unprintable : value :=
  VObj [("exp", VNum (Num 2000000000));
        ("data", VObj [("tipo_usuario_id", VObj [("toString", VNum (Num 1))]);
                       ("nombre", VStr "Ana")])].

(** What jwt-decode gives on the tokens of the examples; every other
    string is taken as malformed. *)
Definition decode_table (t : string) : option value :=
  if String.eqb t "tok.ok" then Some claims_ok
  else if String.eqb t "tok.old" then Some claims_old
  else if String.eqb t "tok.nodata" then Some claims_nodata
  else if String.eqb t "tok.unprintable" then Some claims_unprintable
  else None.

(** No string of the examples is read as a number. *)
Definition number_table (s : string) : number := NaN.

(** No number of the examples is beyond 2^53. *)
Definition large_table (z : Z) : string := "".

(** The host before its parser is known, to print the text the parser
    is given. *)
Definition printer : Host :=
  {| jwtDecode := decode_table;
     JSON_parse := fun _ => None;
     StringToNumber := number_table;
     large_number_text := large_table |}.

(** The JSON text of the user data. *)
Definition datos_text : string := JSON_text (H := printer) datos.

(** What [JSON.parse] gives on the texts of the examples; every other
    text is taken as malformed. *)
Definition parse_table (text : string) : option value :=
  if String.eqb text datos_text then Some datos
  else if String.eqb text "{}" then Some (VObj [])
  else if String.eqb text "null" then Some VNull
  else None.

Definition host : Host :=
  {| jwtDecode := decode_table;
     JSON_parse := parse_table;
     StringToNumber := number_table;
     large_number_text := large_table |}.

(** A new instance over an empty storage. *)
Definition fresh : World := initial ∅ now.

(** A new instance over the storage a live login left behind. *)
Definition revisit : World :=
  initial
    (localStorage
       (world_after
          (login (H := host) env "tok.ok" (VObj [("nombre", VStr "Ana")]))
          fresh))
    now.

(** The instance after a live login. *)
Definition session : World :=
  world_after (login (H := host) env "tok.ok" (VObj [("nombre", VStr "Ana")]))
    fresh.

(** Storages with the three entries in place: one whose user-type id is
    the empty string, one whose record is the JSON text null. *)
Definition blank_tipo : World :=
  initial
    (<["app_datos" := "{}"]>
       (<["app_tipo_usuario_id" := ""]> (<["app_token" := "tok.ok"]> ∅)))
    now.
Definition null_datos : World :=
  initial
    (<["app_datos" := "null"]>
       (<["app_tipo_usuario_id" := "2"]> (<["app_token" := "tok.ok"]> ∅)))
    now.

(** Development mode, every development entry defined. *)
Definition env_dev : ImportMetaEnv :=
  {| DEV := true;
     VITE_BASENAME_DEV := Some "dev"; VITE_BASE_URL_DEV := Some "http://l";
     VITE_URL_REDIRECT_DEV := Some "http://l/r";
     VITE_URL_OAUTH_DEV := Some "http://l/o";
     VITE_CLIENTE_ID_DEV := Some "7"; VITE_TEST_DEV := Some "tRuE";
     VITE_BASENAME := Some "app"; VITE_BASE_URL := None;
     VITE_URL_REDIRECT := None; VITE_URL_OAUTH := None;
     VITE_CLIENTE_ID := None; VITE_TEST := Some "false" |}.

(** The same development entries over other production entries. *)
Definition env_dev' : ImportMetaEnv :=
  {| DEV := true;
     VITE_BASENAME_DEV := Some "dev"; VITE_BASE_URL_DEV := Some "http://l";
     VITE_URL_REDIRECT_DEV := Some "http://l/r";
     VITE_URL_OAUTH_DEV := Some "http://l/o";
     VITE_CLIENTE_ID_DEV := Some "7"; VITE_TEST_DEV := Some "tRuE";
     VITE_BASENAME := None; VITE_BASE_URL := Some "https://p";
     VITE_URL_REDIRECT := None; VITE_URL_OAUTH := None;
     VITE_CLIENTE_ID := Some "9"; VITE_TEST := Some "true" |}.

(** The record passed to [login] in the examples. *)
Definition ana : value := VObj [("nombre", VStr "Ana")].

(** The logged-in instance read after the token has expired. *)
Definition late : World := at_time 2000000000001 session.

(** The logged-in instance after other code has overwritten the stored
    token with a string that does not decode. *)
Definition tampered : World :=
  step (H := host) env
    (Outside (<["app_token" := "garbage"]> (localStorage session)) now)
    session.

(** An instance over a storage that also holds an entry of another
    application. *)
Definition shared : World := initial (<["other_token" := "x"]> ∅) now.

End Demo.

(* ===================================================================== *)
(** ** Properties of useEnv *)
(* ===================================================================== *)

Module UseEnvSpec.
Import Js UseEnv.

Lemma TEST_useEnv (env : ImportMetaEnv) :
  TEST (useEnv env) = test_flag (test_entry env).
Proof. unfold useEnv, test_entry. destruct (DEV env); reflexivity. Qed.

Lemma or_empty_Some (s : string) : or_empty (Some s) = s.
Proof.
  unfold or_empty. simpl. destruct (String.eqb_spec s ""); simpl; congruence.
Qed.

(** Only a letter and its capital are lowered to that letter. *)
Lemma lower_char_t (c : ascii) :
  lower_char c = "t"%char -> c = "t"%char \/ c = "T"%char.
Proof.
  destruct c as [[] [] [] [] [] [] [] []]; vm_compute; intros E;
    first [discriminate E | now left | now right].
Qed.

Lemma lower_char_r (c : ascii) :
  lower_char c = "r"%char -> c = "r"%char \/ c = "R"%char.
Proof.
  destruct c as [[] [] [] [] [] [] [] []]; vm_compute; intros E;
    first [discriminate E | now left | now right].
Qed.

Lemma lower_char_u (c : ascii) :
  lower_char c = "u"%char -> c = "u"%char \/ c = "U"%char.
Proof.
  destruct c as [[] [] [] [] [] [] [] []]; vm_compute; intros E;
    first [discriminate E | now left | now right].
Qed.

Lemma lower_char_e (c : ascii) :
  lower_char c = "e"%char -> c = "e"%char \/ c = "E"%char.
Proof.
  destruct c as [[] [] [] [] [] [] [] []]; vm_compute; intros E;
    first [discriminate E | now left | now right].
Qed.

(** The strings that lower to "true" are its sixteen spellings. *)
Lemma toLowerCase_true_spellings (s : string) :
  toLowerCase s = "true" <->
  exists c1 c2 c3 c4,
    s = String c1 (String c2 (String c3 (String c4 ""))) /\
    (c1 = "t" \/ c1 = "T")%char /\ (c2 = "r" \/ c2 = "R")%char /\
    (c3 = "u" \/ c3 = "U")%char /\ (c4 = "e" \/ c4 = "E")%char.
Proof.
  split.
  - destruct s as [|c1 [|c2 [|c3 [|c4 [|c5 s]]]]]; simpl; try discriminate.
    intros E. injection E as E1 E2 E3 E4.
    exists c1, c2, c3, c4.
    repeat split;
      auto using lower_char_t, lower_char_r, lower_char_u, lower_char_e.
  - intros (c1 & c2 & c3 & c4 & -> & H1 & H2 & H3 & H4).
    destruct H1 as [-> | ->], H2 as [-> | ->], H3 as [-> | ->],
      H4 as [-> | ->]; reflexivity.
Qed.

(** C1, as stated, fails: the entry "True" lowers to "true", so the flag
    is on, where the claim lists "True" among the values that give false. *)
Lemma TEST_True_is_on :
  TEST (useEnv (env_with_test false (Some "True"))) <> false.
Proof. vm_compute. discriminate. Qed.

(** C1 (amended). In either mode, [TEST] is true exactly when the entry
    of that mode is defined and its lowercase form is "true"; so "True"
    gives true, and "1", the empty string and a missing entry give
    false. *)
Theorem TEST_iff_lowercase_true :
  (forall env : ImportMetaEnv,
      TEST (useEnv env) = true <->
      exists s, test_entry env = Some s /\ toLowerCase s = "true") /\
  (forall dev : bool,
      TEST (useEnv (env_with_test dev (Some "True"))) = true /\
      TEST (useEnv (env_with_test dev (Some "true"))) = true /\
      TEST (useEnv (env_with_test dev (Some "1"))) = false /\
      TEST (useEnv (env_with_test dev (Some ""))) = false /\
      TEST (useEnv (env_with_test dev None)) = false).
Proof.
  split.
  - intros env. rewrite TEST_useEnv. unfold test_flag.
    destruct (test_entry env) as [s|].
    + rewrite or_empty_Some. split.
      * intros E. apply String.eqb_eq in E. eauto.
      * intros (s' & [= <-] & E). now apply String.eqb_eq.
    + split; [discriminate | intros (s & [=] & _)].
  - intros []; vm_compute; repeat split.
Qed.

End UseEnvSpec.

(* ===================================================================== *)
(** ** Properties of useUser *)
(* ===================================================================== *)

Module UseUserSpec.
Import Js UseEnv UseUser.

Section Hook.
Context `{Host} (env : ImportMetaEnv).

#[local] Arguments key : simpl never.

(** Unfolding one call down to the world it leaves. *)
Ltac unfold_monad :=
  unfold localStorage_setItem in *;
  unfold mbind, mret, M_bind, M_ret, try_catch, throw, lift, get_world,
    setUsuario, setPersona, setTipoUsuarioId, setLogged, setToken,
    localStorage_getItem, localStorage_clear,
    console_error, new_Date, modify, with_storage, result_of,
    world_after in *.

(** *** Small facts about values *)

Lemma truthy_get_prop (v : value) (k : string) :
  truthy v = true -> exists p, get_prop v k = Normal p.
Proof. destruct v; simpl; try discriminate; eauto. Qed.

Lemma is_record_truthy (v : value) : is_record v = true -> truthy v = true.
Proof. destruct v; simpl; try discriminate; reflexivity. Qed.

Lemma is_record_guard (v : value) :
  negb (String.eqb (typeof v) "object") || is_null v = negb (is_record v).
Proof. destruct v; reflexivity. Qed.

Lemma key_inj (a b : string) : key env a = key env b -> a = b.
Proof. unfold key. apply String.app_inj. Qed.

(** [JSON.stringify] of a truthy value is a string, stored as it is. *)
Lemma ToString_JSON_stringify (v : value) :
  truthy v = true -> ToString (JSON_stringify v) = Normal (JSON_text v).
Proof. destruct v; try discriminate; reflexivity. Qed.

(** *** logout *)

Lemma logout_run (w : World) : logout w = (Normal tt, logged_out w).
Proof. reflexivity. Qed.

(** *** login, path by path *)

Lemma login_rejected (token : string) (usuario : value) (w : World) :
  is_record usuario = false ->
  login env token usuario w =
  (Normal tt,
   mkWorld (UseUser.usuario w) (persona w) (tipoUsuarioId w) (logged w)
     (UseUser.token w) (localStorage w)
     (console w ++ ["Intento de login con datos de usuario inválidos:"])
     (clock w)).
Proof.
  intros Hrec. unfold login. rewrite is_record_guard, Hrec. reflexivity.
Qed.

Lemma login_failed (token : string) (usuario : value) (w : World) :
  is_record usuario = true ->
  login_payload token = None ->
  login env token usuario w =
  (Normal tt,
   logged_out
     (mkWorld (UseUser.usuario w) (persona w) (tipoUsuarioId w) (logged w)
        (UseUser.token w) (localStorage w)
        (console w ++ ["Error al decodificar el token en login:"])
        (clock w))).
Proof.
  intros Hrec Hpay. unfold login. rewrite is_record_guard, Hrec. simpl.
  unfold login_payload in Hpay. unfold_monad. unfold jwtDecode_call, throw.
  destruct (jwtDecode token) as [decoded|]; [|reflexivity].
  unfold mret, M_ret.
  destruct (get_prop decoded "data") as [data|]; [|reflexivity].
  destruct (get_prop data "tipo_usuario_id") as [tipo|]; [|reflexivity].
  destruct (ToString tipo) as [text|] eqn:Htext; [discriminate|].
  reflexivity.
Qed.

Lemma login_ok (token : string) (usuario data tipo : value) (text : string)
    (w : World) :
  is_record usuario = true ->
  login_payload token = Some (data, tipo, text) ->
  login env token usuario w =
  (Normal tt, logged_in env token usuario data tipo text w).
Proof.
  intros Hrec Hpay. unfold login. rewrite is_record_guard, Hrec. simpl.
  unfold login_payload in Hpay.
  unfold jwtDecode_call, getUser, getTipoUsuario, logged_in.
  unfold_monad.
  destruct (jwtDecode token) as [decoded|]; [|discriminate].
  destruct (get_prop decoded "data") as [data'|]; [|discriminate].
  destruct (get_prop data' "tipo_usuario_id") as [tipo'|]; [|discriminate].
  destruct (ToString tipo') as [text'|] eqn:Htext; [|discriminate].
  injection Hpay as -> -> ->.
  set (usuarioData := if truthy data then data else usuario).
  assert (Htruthy : truthy usuarioData = true).
  { subst usuarioData. destruct (truthy data) eqn:E; [exact E|].
    now apply is_record_truthy. }
  destruct (truthy_get_prop usuarioData "persona" Htruthy) as [p Hp].
  rewrite (ToString_JSON_stringify _ Htruthy).
  rewrite !Htruthy, !Hp. cbn.
  destruct (truthy tipo); cbn; [reflexivity|].
  rewrite lookup_insert_ne by (intros E; apply key_inj in E; discriminate).
  rewrite lookup_insert_eq. reflexivity.
Qed.

(** *** getUsuarioFromStorage and getLocalData, path by path *)

Lemma filled_Some (o : option string) :
  filled o = true <-> exists s, o = Some s /\ s <> "".
Proof.
  unfold filled. destruct o as [s|]; simpl.
  - destruct (String.eqb_spec s ""); simpl; split.
    + discriminate.
    + intros (s' & [= <-] & Hne). contradiction.
    + eauto.
    + reflexivity.
  - split; [discriminate | intros (s & [=] & _)].
Qed.

Lemma filled_nonempty (s : string) : s <> "" -> filled (Some s) = true.
Proof. intros Hne. apply filled_Some. eauto. Qed.

Lemma getUsuarioFromStorage_unfilled (w : World) :
  filled (stored_datos env w) = false ->
  getUsuarioFromStorage env w = (Normal VNull, w).
Proof.
  unfold filled, stored_datos, getUsuarioFromStorage. unfold_monad.
  intros ->. reflexivity.
Qed.

Lemma getUsuarioFromStorage_parsed (w : World) (d : string) (v : value) :
  stored_datos env w = Some d -> d <> "" -> JSON_parse d = Some v ->
  getUsuarioFromStorage env w = (Normal v, w).
Proof.
  unfold stored_datos, getUsuarioFromStorage, JSON_parse_call.
  unfold_monad. intros Hd Hne Hv.
  rewrite Hd. fold (filled (Some d)). rewrite (filled_nonempty d Hne).
  simpl. rewrite Hv. reflexivity.
Qed.

Lemma getUsuarioFromStorage_malformed (w : World) (d : string) :
  stored_datos env w = Some d -> d <> "" -> JSON_parse d = None ->
  getUsuarioFromStorage env w =
  (Normal VNull,
   mkWorld (usuario w) (persona w) (tipoUsuarioId w) (logged w) (token w) ∅
     (console w ++ ["Error parseando datos de usuario desde localStorage:"])
     (clock w)).
Proof.
  unfold stored_datos, getUsuarioFromStorage, JSON_parse_call.
  unfold_monad. intros Hd Hne Hv.
  rewrite Hd. fold (filled (Some d)). rewrite (filled_nonempty d Hne).
  simpl. rewrite Hv. reflexivity.
Qed.

(** [getUsuarioFromStorage] never throws, and leaves the slots alone:
    it either leaves the world as it is or empties the storage. *)
Lemma getUsuarioFromStorage_total (w : World) :
  exists v w',
    getUsuarioFromStorage env w = (Normal v, w') /\
    usuario w' = usuario w /\ persona w' = persona w /\
    tipoUsuarioId w' = tipoUsuarioId w /\ logged w' = logged w /\
    token w' = token w /\ clock w' = clock w /\
    (localStorage w' = localStorage w \/ localStorage w' = ∅).
Proof.
  destruct (filled (stored_datos env w)) eqn:Hf.
  - apply filled_Some in Hf as (d & Hd & Hne).
    destruct (JSON_parse d) as [v|] eqn:Hv.
    + exists v, w. rewrite (getUsuarioFromStorage_parsed w d v) by assumption.
      repeat split; auto.
    + eexists _, _.
      rewrite (getUsuarioFromStorage_malformed w d) by assumption.
      repeat split; auto.
  - exists VNull, w. rewrite getUsuarioFromStorage_unfilled by assumption.
    repeat split; auto.
Qed.

(** The failing branch of [getLocalData]. *)
Lemma getLocalData_absent (w w1 : World) (v : value) :
  getUsuarioFromStorage env w = (Normal v, w1) ->
  filled (stored_token env w) && filled (stored_tipo env w) && truthy v
    = false ->
  getLocalData env w =
  (Normal None,
   mkWorld VNull VNull VNull (Some false) None (localStorage w1)
     (console w1) (clock w1)).
Proof.
  intros Hu Hc. unfold getLocalData. unfold_monad.
  rewrite Hu. unfold filled, stored_token, stored_tipo in Hc.
  rewrite Hc. reflexivity.
Qed.

(** The succeeding branch of [getLocalData]. *)
Lemma getLocalData_present (w : World) (t ti d : string) (v : value) :
  stored_token env w = Some t -> stored_tipo env w = Some ti ->
  stored_datos env w = Some d ->
  t <> "" -> ti <> "" -> d <> "" ->
  JSON_parse d = Some v -> truthy v = true ->
  getLocalData env w =
  (Normal (Some t),
   mkWorld (VObj (remove_key "persona" (spread v)))
     (match get_prop v "persona" with Normal p => p | Throw _ => VUndefined end)
     (VStr ti) (Some true) (Some t) (localStorage w) (console w) (clock w)).
Proof.
  intros Ht Hti Hd Hnt Hnti Hnd Hv Htr.
  unfold getLocalData, getUser, getTipoUsuario.
  pose proof (getUsuarioFromStorage_parsed w d v Hd Hnd Hv) as Hu.
  unfold stored_token, stored_tipo in *.
  unfold_monad. rewrite Hu, Ht, Hti.
  fold (filled (Some t)) (filled (Some ti)).
  rewrite (filled_nonempty t Hnt), (filled_nonempty ti Hnti), !Htr.
  destruct (truthy_get_prop v "persona" Htr) as [p Hp]. rewrite !Hp.
  reflexivity.
Qed.

(** *** verificarToken *)

(** [verificarToken] never throws and leaves slots, storage and clock
    as they are; only the console may grow. *)
Lemma verificarToken_total (w : World) :
  exists b w',
    verificarToken w = (Normal b, w') /\ observable w' = observable w /\
    clock w' = clock w.
Proof.
  unfold verificarToken, jwtDecode_call. unfold_monad.
  destruct (bool_decide (logged w = None) ||
            negb (truthy (of_nullable (token w)))); [eauto|].
  destruct (token w) as [t|]; [|eauto].
  destruct (jwtDecode t) as [decoded|]; [|eauto].
  destruct (get_prop decoded "exp") as [e|]; [|eauto].
  destruct (ToNumber e); eauto.
Qed.

Lemma verificarToken_unknown (w : World) :
  logged w = None \/ filled (token w) = false ->
  verificarToken w = (Normal false, w).
Proof.
  unfold verificarToken, filled. unfold_monad. intros [-> | ->].
  - reflexivity.
  - now rewrite orb_true_r.
Qed.

(** Past the guard, the answer is the comparison of the expiry with
    the clock when there is an expiry to read, and false otherwise. *)
Lemma verificarToken_decoded (w : World) (t : string) (decoded : value) :
  logged w <> None -> token w = Some t -> t <> "" ->
  jwtDecode t = Some decoded ->
  result_of verificarToken w =
  Normal (match get_prop decoded "exp" with
          | Normal e => ge (expiry_time e) (Num (clock w))
          | Throw _ => false
          end).
Proof.
  intros Hl Ht Hne Hdec. unfold verificarToken, jwtDecode_call.
  unfold_monad. rewrite Ht.
  rewrite (bool_decide_eq_false_2 _ Hl).
  fold (filled (Some t)). rewrite (filled_nonempty t Hne). simpl.
  rewrite Hdec. destruct (get_prop decoded "exp") as [e|]; [|reflexivity].
  unfold expiry_time. destruct (ToNumber e); reflexivity.
Qed.

Lemma verificarToken_undecodable (w : World) (t : string) :
  token w = Some t -> jwtDecode t = None ->
  result_of verificarToken w = Normal false.
Proof.
  intros Ht Hdec. unfold verificarToken, jwtDecode_call. unfold_monad.
  rewrite Ht.
  destruct (bool_decide (logged w = None) ||
            negb (truthy (of_nullable (Some t)))); [reflexivity|].
  rewrite Hdec. reflexivity.
Qed.

Lemma ge_Num (a : number) (y : Z) :
  ge a (Num y) = true <-> exists x, a = Num x /\ y <= x.
Proof.
  destruct a as [|x]; simpl.
  - split; [discriminate | intros (x & [=] & _)].
  - rewrite Z.leb_le. split; [eauto | intros (x' & [= <-] & Hle); exact Hle].
Qed.

(** A true answer says: known state, a token in the slot, unexpired. *)
Lemma verificarToken_true (w : World) :
  result_of verificarToken w = Normal true ->
  logged w <> None /\ filled (token w) = true /\ unexpired w.
Proof.
  intros Hres.
  destruct (logged w) as [b|] eqn:Hl.
  2:{ unfold result_of in Hres.
      rewrite verificarToken_unknown in Hres by auto. discriminate. }
  destruct (filled (token w)) eqn:Hf.
  2:{ unfold result_of in Hres.
      rewrite verificarToken_unknown in Hres by auto. discriminate. }
  split; [discriminate|]. split; [reflexivity|].
  apply filled_Some in Hf as (t & Ht & Hne).
  destruct (jwtDecode t) as [decoded|] eqn:Hdec.
  - rewrite (verificarToken_decoded w t decoded) in Hres
      by (congruence || assumption).
    destruct (get_prop decoded "exp") as [e|] eqn:He; [|discriminate].
    injection Hres as Hge. apply ge_Num in Hge as (x & Hx & Hle).
    exists t, decoded, e, x. auto.
  - rewrite (verificarToken_undecodable w t) in Hres by assumption.
    discriminate.
Qed.

(** *** checkLogged, path by path *)

Lemma observable_storage (w w' : World) :
  observable w' = observable w -> localStorage w' = localStorage w.
Proof. unfold observable. intros [= _ _ _ _ _ E]. exact E. Qed.

Lemma checkLogged_test (l : list number) (w : World) :
  TEST_ env = true -> checkLogged env l w = (Normal true, w).
Proof. intros HT. unfold checkLogged. rewrite HT. reflexivity. Qed.

Lemma checkLogged_no_token (l : list number) (w : World) :
  TEST_ env = false -> filled (stored_token env w) = false ->
  checkLogged env l w = (Normal false, logged_out w).
Proof.
  intros HT Hf. unfold checkLogged. rewrite HT.
  unfold filled, stored_token in Hf. unfold_monad. rewrite Hf. reflexivity.
Qed.

Lemma checkLogged_invalid (l : list number) (w : World) :
  TEST_ env = false -> filled (stored_token env w) = true ->
  result_of verificarToken w = Normal false ->
  result_of (checkLogged env l) w = Normal false /\
  observable (world_after (checkLogged env l) w) = observable (logged_out w).
Proof.
  intros HT Hf Hv. unfold checkLogged. rewrite HT.
  destruct (verificarToken_total w) as (b & w' & Hrun & Hobs & _).
  unfold result_of in Hv. rewrite Hrun in Hv. injection Hv as ->.
  unfold filled, stored_token in Hf. unfold_monad.
  rewrite Hf. cbv beta iota delta [negb]. rewrite Hrun.
  split; reflexivity.
Qed.

Lemma checkLogged_valid (l : list number) (w : World) :
  TEST_ env = false -> filled (stored_token env w) = true ->
  result_of verificarToken w = Normal true ->
  result_of (checkLogged env l) w =
    Normal (if (0 <? length l)%nat
            then includes l (parseInt (stored_tipo env w))
            else true) /\
  observable (world_after (checkLogged env l) w) = observable w.
Proof.
  intros HT Hf Hv. unfold checkLogged. rewrite HT.
  destruct (verificarToken_total w) as (b & w' & Hrun & Hobs & _).
  unfold result_of in Hv. rewrite Hrun in Hv. injection Hv as ->.
  unfold filled, stored_token, stored_tipo in *. unfold_monad.
  rewrite Hf. cbv beta iota delta [negb]. rewrite Hrun.
  rewrite (observable_storage _ _ Hobs).
  destruct (0 <? length l)%nat; split; auto.
Qed.

(** A call of [checkLogged] leaves slots and storage as they are, or
    as [logout] leaves them. *)
Lemma checkLogged_world (l : list number) (w : World) :
  observable (world_after (checkLogged env l) w) = observable w \/
  observable (world_after (checkLogged env l) w) = observable (logged_out w).
Proof.
  destruct (TEST_ env) eqn:HT.
  - left. unfold world_after. now rewrite checkLogged_test.
  - destruct (filled (stored_token env w)) eqn:Hf.
    + destruct (verificarToken_total w) as (b & w' & Hrun & _).
      destruct b.
      * left. apply checkLogged_valid; auto.
        unfold result_of. now rewrite Hrun.
      * right. apply checkLogged_invalid; auto.
        unfold result_of. now rewrite Hrun.
    + right. unfold world_after. now rewrite checkLogged_no_token.
Qed.

(** [checkLogged] never throws. *)
Lemma checkLogged_total (l : list number) (w : World) :
  exists b, result_of (checkLogged env l) w = Normal b.
Proof.
  destruct (TEST_ env) eqn:HT.
  - exists true. unfold result_of. now rewrite checkLogged_test.
  - destruct (filled (stored_token env w)) eqn:Hf.
    + destruct (verificarToken_total w) as (b & w' & Hrun & _).
      destruct b.
      * eexists. apply checkLogged_valid; auto.
        unfold result_of. now rewrite Hrun.
      * exists false. apply checkLogged_invalid; auto.
        unfold result_of. now rewrite Hrun.
    + exists false. unfold result_of. now rewrite checkLogged_no_token.
Qed.

(** *** What each call does to the [logged] and [token] slots *)

Lemma observable_slots (w w' : World) :
  observable w' = observable w ->
  logged w' = logged w /\ token w' = token w.
Proof. unfold observable. intros [= _ _ _ E1 E2 _]. auto. Qed.

(** [getLocalData] never throws; it returns nothing and clears the
    slots, or returns the stored token and sets [logged]. *)
Lemma getLocalData_total (w : World) :
  exists r w',
    getLocalData env w = (Normal r, w') /\
    ((r = None /\ slots_cleared w') \/
     (exists t, r = Some t /\ stored_token env w = Some t /\
                logged w' = Some true /\ token w' = Some t)).
Proof.
  destruct (getUsuarioFromStorage_total w) as (v & w1 & Hu & _).
  destruct (filled (stored_token env w) && filled (stored_tipo env w)
            && truthy v) eqn:Hc.
  - apply andb_true_iff in Hc as [Hc Hv].
    apply andb_true_iff in Hc as [Ht Hti].
    apply filled_Some in Ht as (t & Ht & Hnt).
    apply filled_Some in Hti as (ti & Hti & Hnti).
    destruct (filled (stored_datos env w)) eqn:Hd.
    + apply filled_Some in Hd as (d & Hd & Hnd).
      destruct (JSON_parse d) as [v'|] eqn:Hp.
      * rewrite (getUsuarioFromStorage_parsed w d v') in Hu by assumption.
        injection Hu as <- <-.
        eexists _, _. split.
        { apply (getLocalData_present w t ti d v'); assumption. }
        right. exists t. simpl. auto.
      * rewrite (getUsuarioFromStorage_malformed w d) in Hu by assumption.
        injection Hu as <- _. discriminate Hv.
    + rewrite getUsuarioFromStorage_unfilled in Hu by assumption.
      injection Hu as <- _. discriminate Hv.
  - eexists _, _. split.
    { apply (getLocalData_absent w w1 v); assumption. }
    left. unfold slots_cleared. simpl. auto 10.
Qed.

Lemma exec_login_slots (t : string) (u : value) (w : World) :
  forall w', w' = world_after (login env t u) w ->
  (is_record u = false /\ logged w' = logged w /\ token w' = token w) \/
  (is_record u = true /\ login_payload t = None /\
   logged w' = Some false /\ token w' = None) \/
  (is_record u = true /\ is_Some (login_payload t) /\
   logged w' = Some true /\ token w' = Some t).
Proof.
  intros w' ->. unfold world_after. destruct (is_record u) eqn:Hrec.
  - right. destruct (login_payload t) as [[[data tipo] text]|] eqn:Hpay.
    + right. rewrite (login_ok t u data tipo text) by assumption. simpl. eauto.
    + left. rewrite login_failed by assumption. simpl. auto.
  - left. rewrite login_rejected by assumption. simpl. auto.
Qed.

(** Every call leaves the slots coherent. *)
Lemma step_coherent (e : event) (w : World) :
  coherent w -> coherent (step env e w).
Proof.
  unfold coherent. intros Hco. destruct e as [c | storage now]; [|exact Hco].
  destruct c as [t u | | | | l]; cbn [step exec].
  - destruct (exec_login_slots t u w _ eq_refl)
      as [(_ & -> & ->) | [(_ & _ & _ & ->) | (_ & _ & -> & _)]]; auto.
  - right. reflexivity.
  - unfold world_after.
    destruct (getLocalData_total w) as (r & w' & -> & Hcases).
    cbn [snd].
    destruct Hcases as [(_ & _ & _ & _ & -> & _) | (t & _ & _ & -> & _)];
      auto.
  - unfold world_after.
    destruct (verificarToken_total w) as (b & w' & -> & Hobs & _).
    cbn [snd]. apply observable_slots in Hobs as [-> ->]. exact Hco.
  - destruct (checkLogged_world l w) as [Hobs | Hobs];
      apply observable_slots in Hobs as [-> ->]; auto.
Qed.

Lemma reachable_coherent (w : World) : reachable env w -> coherent w.
Proof.
  induction 1 as [storage now | e w _ IH].
  - right. reflexivity.
  - now apply step_coherent.
Qed.

(** No call brings [logged] back to null. *)
Lemma step_known (e : event) (w : World) :
  logged w <> None -> logged (step env e w) <> None.
Proof.
  intros Hk. destruct e as [c | storage now]; [|exact Hk].
  destruct c as [t u | | | | l]; cbn [step exec].
  - destruct (exec_login_slots t u w _ eq_refl)
      as [(_ & -> & _) | [(_ & _ & -> & _) | (_ & _ & -> & _)]];
      auto; discriminate.
  - discriminate.
  - unfold world_after.
    destruct (getLocalData_total w) as (r & w' & -> & Hcases).
    cbn [snd].
    destruct Hcases as [(_ & _ & _ & _ & _ & ->) | (t & _ & _ & -> & _)];
      discriminate.
  - unfold world_after.
    destruct (verificarToken_total w) as (b & w' & -> & Hobs & _).
    cbn [snd]. apply observable_slots in Hobs as [-> _]. exact Hk.
  - destruct (checkLogged_world l w) as [Hobs | Hobs];
      apply observable_slots in Hobs as [-> _]; [exact Hk | discriminate].
Qed.

(** *** The claims *)

(** C7. After [logout], whatever the world was: the storage is empty,
    so the token, the user-type id and the serialized user record are
    absent from it; [logged] is false, not null; the usuario, persona,
    token and tipoUsuarioId slots are null. The call does not throw. *)
Theorem logout_clears_everything (w : World) :
  let w' := world_after logout w in
  result_of logout w = Normal tt /\
  localStorage w' = ∅ /\
  stored_token env w' = None /\ stored_tipo env w' = None /\
  stored_datos env w' = None /\
  logged w' = Some false /\
  usuario w' = VNull /\ persona w' = VNull /\ token w' = None /\
  tipoUsuarioId w' = VNull.
Proof.
  unfold stored_token, stored_tipo, stored_datos, result_of, world_after.
  rewrite logout_run. cbn [fst snd logged_out localStorage logged usuario
                           persona token tipoUsuarioId].
  rewrite !lookup_empty. repeat split.
Qed.

(** C5. When [jwtDecode] throws on the token and the user argument is
    a non-null record, [login] returns normally and leaves the same
    slots and the same storage as [logout] does from the same world:
    everything null, [logged] false, the storage empty. *)
Theorem failed_login_is_logout
    (tok : string) (usr : value) (w : World) :
  is_record usr = true ->
  jwtDecode tok = None ->
  result_of (login env tok usr) w = Normal tt /\
  observable (world_after (login env tok usr) w)
    = observable (world_after logout w) /\
  observable (world_after (login env tok usr) w)
    = (VNull, VNull, VNull, Some false, None, ∅).
Proof.
  intros Hrec Hdec.
  assert (Hpay : login_payload tok = None).
  { unfold login_payload. now rewrite Hdec. }
  unfold result_of, world_after.
  rewrite login_failed by assumption. rewrite logout_run.
  repeat split.
Qed.

(** C6. When the user argument is not a non-null record, [login]
    returns normally and every slot and every storage entry is what it
    was; only a line is added to the console. *)
Theorem login_rejects_non_record
    (tok : string) (usr : value) (w : World) :
  is_record usr = false ->
  result_of (login env tok usr) w = Normal tt /\
  observable (world_after (login env tok usr) w) = observable w /\
  localStorage (world_after (login env tok usr) w) = localStorage w /\
  clock (world_after (login env tok usr) w) = clock w.
Proof.
  intros Hrec. unfold result_of, world_after.
  rewrite login_rejected by assumption. repeat split.
Qed.

(** C10. An instance whose slots are still the initial ones ([logged]
    null, no token), outside test mode, over a storage that holds a
    token (be it decodable and unexpired): [checkLogged], whatever the
    list, returns false and leaves what [logout] leaves, an empty
    storage included; [getLocalData] called next returns null. *)
Theorem checkLogged_destroys_unloaded_session
    (l : list number) (w : World) (t : string) :
  TEST_ env = false ->
  logged w = None -> token w = None ->
  stored_token env w = Some t ->
  let w' := world_after (checkLogged env l) w in
  result_of (checkLogged env l) w = Normal false /\
  observable w' = observable (world_after logout w) /\
  localStorage w' = ∅ /\ logged w' = Some false /\
  result_of (getLocalData env) w' = Normal None.
Proof.
  intros HT Hl Htok Hst w'.
  assert (Hres : result_of (checkLogged env l) w = Normal false /\
                 observable w' = observable (logged_out w)).
  { destruct (filled (stored_token env w)) eqn:Hf.
    - apply checkLogged_invalid; auto.
      unfold result_of. rewrite verificarToken_unknown; auto.
    - subst w'. unfold result_of, world_after.
      rewrite checkLogged_no_token by assumption. auto. }
  destruct Hres as [Hres Hobs]. split; [exact Hres|].
  split; [exact Hobs|].
  pose proof (observable_storage _ _ Hobs) as Hsto.
  pose proof (observable_slots _ _ Hobs) as [Hlog _].
  split; [exact Hsto|]. split; [exact Hlog|].
  unfold result_of.
  rewrite (getLocalData_absent w' w' VNull).
  - reflexivity.
  - apply getUsuarioFromStorage_unfilled.
    unfold stored_datos. rewrite Hsto. simpl. now rewrite lookup_empty.
  - unfold stored_token. rewrite Hsto. simpl. now rewrite lookup_empty.
Qed.

(** C4. [verificarToken] never throws and changes no slot and no
    storage entry. It returns false when [logged] is null or no token
    is in the slot (null or the empty string), and when [jwtDecode]
    throws on the token. When [logged] is known and the token decodes
    to [decoded], it returns true exactly when [decoded.exp], times
    1000 and taken as a date, is a time value at or after the clock;
    for an integer [exp] whose date is in range, exactly when
    [clock <= exp * 1000]. *)
Theorem verificarToken_spec (w : World) :
  (exists b, result_of verificarToken w = Normal b) /\
  observable (world_after verificarToken w) = observable w /\
  (logged w = None \/ filled (token w) = false ->
   result_of verificarToken w = Normal false) /\
  (forall t, token w = Some t -> jwtDecode t = None ->
             result_of verificarToken w = Normal false) /\
  (forall t decoded,
      logged w <> None -> token w = Some t -> t <> "" ->
      jwtDecode t = Some decoded ->
      (result_of verificarToken w = Normal true <->
       exists e x, get_prop decoded "exp" = Normal e /\
                   expiry_time e = Num x /\ clock w <= x) /\
      (forall n : Z,
          get_prop decoded "exp" = Normal (VNum (Num n)) ->
          Z.abs (n * 1000) <= 8640000000000000 ->
          (result_of verificarToken w = Normal true <->
           clock w <= n * 1000))).
Proof.
  split; [|split; [|split; [|split]]].
  - destruct (verificarToken_total w) as (b & w' & Hrun & _).
    exists b. unfold result_of. now rewrite Hrun.
  - destruct (verificarToken_total w) as (b & w' & Hrun & Hobs & _).
    unfold world_after. now rewrite Hrun.
  - intros Hu. unfold result_of. now rewrite verificarToken_unknown.
  - intros t Ht Hdec. now apply (verificarToken_undecodable w t).
  - intros t decoded Hl Ht Hne Hdec.
    rewrite (verificarToken_decoded w t decoded) by assumption.
    split.
    + destruct (get_prop decoded "exp") as [e|err].
      * split.
        -- intros [= Hge]. apply ge_Num in Hge as (x & Hx & Hle). eauto.
        -- intros (e' & x & [= <-] & Hx & Hle). f_equal.
           apply ge_Num. eauto.
      * split; [discriminate | intros (e' & x & [=] & _)].
    + intros n -> Hrange. unfold expiry_time. cbn [ToNumber mul TimeClip].
      apply Z.leb_le in Hrange. rewrite Hrange. cbn [ge].
      rewrite <- Z.leb_le.
      split; [intros [= E]; exact E | intros E; f_equal; exact E].
Qed.

(** C3. Outside test mode, in any world an instance can reach, a true
    answer of [checkLogged([1,2,3])] says that [logged] is true, that
    the token in the slot is unexpired, and that the persisted
    user-type id is there and [parseInt] reads it as 1, 2 or 3. In
    test mode [checkLogged] returns true for every list and every
    world, and changes nothing. *)
Theorem checkLogged_roles :
  (forall w : World,
      reachable env w -> TEST_ env = false ->
      result_of (checkLogged env [Num 1; Num 2; Num 3]) w = Normal true ->
      logged w = Some true /\ unexpired w /\
      exists s n, stored_tipo env w = Some s /\
                  parseInt (Some s) = Num n /\ (n = 1 \/ n = 2 \/ n = 3)) /\
  (forall (l : list number) (w : World),
      TEST_ env = true -> checkLogged env l w = (Normal true, w)).
Proof.
  split; [|intros l w HT; now apply checkLogged_test].
  intros w Hreach HT Hres.
  destruct (filled (stored_token env w)) eqn:Hf.
  2:{ unfold result_of in Hres.
      rewrite checkLogged_no_token in Hres by assumption. discriminate. }
  destruct (verificarToken_total w) as (b & w' & Hrun & _).
  assert (Hv : result_of verificarToken w = Normal b).
  { unfold result_of. now rewrite Hrun. }
  destruct b.
  2:{ destruct (checkLogged_invalid [Num 1; Num 2; Num 3] w HT Hf Hv)
        as [Hfalse _]. congruence. }
  destruct (checkLogged_valid [Num 1; Num 2; Num 3] w HT Hf Hv)
    as [Htrue _].
  rewrite Htrue in Hres. cbn [length Nat.ltb Nat.leb] in Hres.
  injection Hres as Hinc.
  destruct (verificarToken_true w Hv) as (Hk & Hheld & Hunexp).
  split.
  { destruct (reachable_coherent w Hreach) as [Hlog | Hnone];
      [exact Hlog|].
    rewrite Hnone in Hheld. discriminate. }
  split; [exact Hunexp|].
  destruct (stored_tipo env w) as [s|];
    [|vm_compute in Hinc; discriminate Hinc].
  destruct (parseInt (Some s)) as [|n] eqn:Hp; [discriminate Hinc|].
  exists s, n. split; [reflexivity|]. split; [exact Hp|].
  unfold includes in Hinc. cbn [existsb same_value_zero] in Hinc.
  rewrite orb_false_r in Hinc.
  apply orb_true_iff in Hinc as [E | Hinc];
    [apply Z.eqb_eq in E; auto|].
  apply orb_true_iff in Hinc as [E | E]; apply Z.eqb_eq in E; auto.
Qed.

(** C8 (amended). [getLocalData] never throws, and:
    - when one of the three entries is missing or is the empty string,
      it sets the slots to null, [logged] to false, and returns null;
    - when the three entries are there and not empty and the record
      parses to a truthy value, it returns the stored token, sets
      [logged] to true, the token and user-type slots to the stored
      strings, [persona] to the record's [persona] and [usuario] to
      the record without it, and leaves the storage as it is;
    - when the record parses to a falsy value (null, false, 0, the
      empty string), it clears the slots and returns null, the storage
      left as it is;
    - when the record is not empty and does not parse, it empties the
      whole storage, clears the slots and returns null. *)
Theorem getLocalData_cases (w : World) :
  let w' := world_after (getLocalData env) w in
  let r := result_of (getLocalData env) w in
  (filled (stored_token env w) = false \/
   filled (stored_tipo env w) = false \/
   filled (stored_datos env w) = false ->
   r = Normal None /\ slots_cleared w') /\
  (forall t ti d v,
      stored_token env w = Some t -> stored_tipo env w = Some ti ->
      stored_datos env w = Some d ->
      t <> "" -> ti <> "" -> d <> "" ->
      JSON_parse d = Some v -> truthy v = true ->
      r = Normal (Some t) /\ logged w' = Some true /\
      token w' = Some t /\ tipoUsuarioId w' = VStr ti /\
      get_prop v "persona" = Normal (persona w') /\
      usuario w' = VObj (remove_key "persona" (spread v)) /\
      localStorage w' = localStorage w) /\
  (forall d v,
      stored_datos env w = Some d -> JSON_parse d = Some v ->
      truthy v = false ->
      r = Normal None /\ slots_cleared w' /\
      localStorage w' = localStorage w) /\
  (forall d,
      stored_datos env w = Some d -> d <> "" -> JSON_parse d = None ->
      r = Normal None /\ slots_cleared w' /\ localStorage w' = ∅).
Proof.
  cbv zeta. unfold result_of, world_after.
  split; [|split; [|split]].
  - intros Hmiss.
    destruct (getUsuarioFromStorage_total w) as (v & w1 & Hu & _).
    rewrite (getLocalData_absent w w1 v Hu).
    + unfold slots_cleared. simpl. auto 10.
    + destruct Hmiss as [-> | [-> | Hd]].
      * reflexivity.
      * now rewrite andb_false_r.
      * rewrite getUsuarioFromStorage_unfilled in Hu by assumption.
        injection Hu as <- _. now rewrite andb_false_r.
  - intros t ti d v Ht Hti Hd Hnt Hnti Hnd Hv Htr.
    rewrite (getLocalData_present w t ti d v) by assumption.
    destruct (truthy_get_prop v "persona" Htr) as [p Hp].
    cbn [fst snd logged token tipoUsuarioId persona usuario localStorage].
    rewrite Hp. repeat split.
  - intros d v Hd Hv Hfalse.
    assert (Hu : getUsuarioFromStorage env w = (Normal v, w) \/
                 getUsuarioFromStorage env w = (Normal VNull, w)).
    { destruct (String.eqb_spec d "") as [-> | Hne].
      - right. apply getUsuarioFromStorage_unfilled. now rewrite Hd.
      - left. now apply (getUsuarioFromStorage_parsed w d v). }
    destruct Hu as [Hu | Hu].
    + rewrite (getLocalData_absent w w v Hu)
        by (rewrite Hfalse; apply andb_false_r).
      unfold slots_cleared. simpl. auto 10.
    + rewrite (getLocalData_absent w w VNull Hu) by apply andb_false_r.
      unfold slots_cleared. simpl. auto 10.
  - intros d Hd Hne Hv.
    pose proof (getUsuarioFromStorage_malformed w d Hd Hne Hv) as Hu.
    rewrite (getLocalData_absent w _ VNull Hu) by apply andb_false_r.
    unfold slots_cleared. simpl. auto 10.
Qed.

(** C9. The [logged] slot: it starts as null; a call leaves it true
    only if it was true already or the call is a [login] that got
    through or a [getLocalData] that returned a token, and those two
    do leave it true; [logout], a [login] whose [try] block fails and
    a [checkLogged] that finds no stored token or whose expiry check
    says no leave it false; once it is not null, no sequence of calls
    and outside changes makes it null again. *)
Theorem logged_state_machine :
  (forall storage now, logged (initial storage now) = None) /\
  (forall e w,
      logged (step env e w) = Some true ->
      logged w = Some true \/ successful_login e \/
      successful_load env e w) /\
  (forall e w,
      successful_login e \/ successful_load env e w ->
      logged (step env e w) = Some true) /\
  (forall e w,
      e = Call Logout \/ failed_login e \/ failed_check env e w ->
      logged (step env e w) = Some false) /\
  (forall events w,
      logged w <> None -> logged (run env events w) <> None).
Proof.
  split; [reflexivity|]. split; [|split; [|split]].
  - intros e w Htrue.
    destruct e as [c | storage now]; [|left; exact Htrue].
    destruct c as [t u | | | | l]; cbn [step exec] in Htrue.
    + destruct (exec_login_slots t u w _ eq_refl)
        as [(_ & E & _) | [(_ & _ & E & _) | (Hrec & Hpay & _)]].
      * left. congruence.
      * congruence.
      * right; left. exists t, u. auto.
    + discriminate Htrue.
    + unfold world_after in Htrue.
      destruct (getLocalData_total w) as (r & w' & Hrun & Hcases).
      rewrite Hrun in Htrue. cbn [snd] in Htrue.
      destruct Hcases as [(_ & _ & _ & _ & _ & E) | (t & -> & _)].
      * congruence.
      * right; right. split; [reflexivity|]. exists t.
        unfold result_of. now rewrite Hrun.
    + unfold world_after in Htrue.
      destruct (verificarToken_total w) as (b & w' & Hrun & Hobs & _).
      rewrite Hrun in Htrue. cbn [snd] in Htrue.
      apply observable_slots in Hobs as [E _]. left. congruence.
    + destruct (checkLogged_world l w) as [Hobs | Hobs];
        apply observable_slots in Hobs as [E _]; rewrite E in Htrue.
      * left. exact Htrue.
      * discriminate Htrue.
  - intros e w [(t & u & -> & Hrec & Hpay) | (-> & t & Hres)];
      cbn [step exec].
    + destruct (exec_login_slots t u w _ eq_refl)
        as [(E & _) | [(_ & E & _) | (_ & _ & E & _)]].
      * congruence.
      * rewrite E in Hpay. destruct Hpay as [x [=]].
      * exact E.
    + unfold world_after, result_of in *.
      destruct (getLocalData_total w) as (r & w' & Hrun & Hcases).
      rewrite Hrun in *. cbn [fst snd] in *.
      destruct Hcases as [(-> & _) | (t' & _ & _ & E & _)];
        [discriminate Hres | exact E].
  - intros e w [-> | [(t & u & -> & Hrec & Hpay) | (l & -> & HT & Hfail)]];
      cbn [step exec].
    + reflexivity.
    + unfold world_after. now rewrite login_failed.
    + assert (Hobs : observable (world_after (checkLogged env l) w)
                     = observable (logged_out w)).
      { destruct (filled (stored_token env w)) eqn:Hf.
        - destruct Hfail as [[=] | Hv]. now apply checkLogged_invalid.
        - unfold world_after. now rewrite checkLogged_no_token. }
      apply observable_slots in Hobs as [E _]. exact E.
  - intros events. induction events as [|e events IH]; intros w Hk.
    + exact Hk.
    + cbn [run fold_left]. apply IH. now apply step_known.
Qed.

(** What a [login] that gets through persists and sets. *)
Lemma login_persists
    (tok : string) (usr data tipo : value) (text : string) (w : World) :
  is_record usr = true ->
  login_payload tok = Some (data, tipo, text) ->
  let w' := world_after (login env tok usr) w in
  stored_token env w' = Some tok /\
  stored_tipo env w' = Some text /\
  stored_datos env w'
    = Some (JSON_text (if truthy data then data else usr)) /\
  logged w' = Some true /\ token w' = Some tok /\
  usuario w'
    = VObj (remove_key "persona" (spread (if truthy data then data else usr))).
Proof.
  intros Hrec Hpay w'. subst w'. unfold world_after.
  rewrite (login_ok tok usr data tipo text) by assumption.
  unfold stored_token, stored_tipo, stored_datos, logged_in.
  cbn [snd localStorage logged token usuario].
  rewrite lookup_insert_eq.
  rewrite !lookup_insert_ne by (intros E; apply key_inj in E; discriminate).
  rewrite lookup_insert_eq.
  rewrite lookup_insert_ne by (intros E; apply key_inj in E; discriminate).
  rewrite lookup_insert_eq. repeat split.
Qed.

(** C2, where the code departs from it. When the token decodes to claims
    whose [data] is missing (or null), [login] with a non-null record does
    not fall back to that record: reading [decoded.data.tipo_usuario_id]
    throws, the [catch] block runs [logout], and the call ends with
    nothing persisted, every slot null and [logged] false. *)
Theorem login_without_data_logs_out
    (tok : string) (usr decoded : value) (w : World) :
  is_record usr = true ->
  jwtDecode tok = Some decoded ->
  get_prop decoded "data" = Normal VUndefined \/
  get_prop decoded "data" = Normal VNull ->
  result_of (login env tok usr) w = Normal tt /\
  observable (world_after (login env tok usr) w)
    = observable (world_after logout w) /\
  observable (world_after (login env tok usr) w)
    = (VNull, VNull, VNull, Some false, None, ∅) /\
  stored_datos env (world_after (login env tok usr) w) = None.
Proof.
  intros Hrec Hdec Hdata.
  assert (Hpay : login_payload tok = None).
  { unfold login_payload. rewrite Hdec. destruct Hdata as [-> | ->]; reflexivity. }
  unfold result_of, world_after, stored_datos.
  rewrite login_failed by assumption. rewrite logout_run.
  cbn [fst snd logged_out localStorage]. rewrite lookup_empty.
  repeat split.
Qed.

End Hook.

(** *** The claims on the concrete host *)

(** C8, as stated, fails. With the three entries in place and a record
    that parses, [getLocalData] still returns null and sets [logged] to
    false: once when the stored user-type id is the empty string, once
    when the record is the JSON text null. *)
Lemma getLocalData_present_yet_absent :
  ~ (forall w : World,
        (exists t ti d v,
            stored_token Demo.env w = Some t /\
            stored_tipo Demo.env w = Some ti /\
            stored_datos Demo.env w = Some d /\
            JSON_parse (Host := Demo.host) d = Some v) ->
        result_of (getLocalData (H := Demo.host) Demo.env) w
          = Normal (stored_token Demo.env w) /\
        logged (world_after (getLocalData (H := Demo.host) Demo.env) w)
          = Some true) /\
  (stored_token Demo.env Demo.blank_tipo = Some "tok.ok" /\
   stored_tipo Demo.env Demo.blank_tipo = Some "" /\
   stored_datos Demo.env Demo.blank_tipo = Some "{}" /\
   JSON_parse (Host := Demo.host) "{}" = Some (VObj []) /\
   getLocalData (H := Demo.host) Demo.env Demo.blank_tipo
     = (Normal None,
        mkWorld VNull VNull VNull (Some false) None
          (localStorage Demo.blank_tipo) [] Demo.now)) /\
  (stored_token Demo.env Demo.null_datos = Some "tok.ok" /\
   stored_tipo Demo.env Demo.null_datos = Some "2" /\
   stored_datos Demo.env Demo.null_datos = Some "null" /\
   JSON_parse (Host := Demo.host) "null" = Some VNull /\
   getLocalData (H := Demo.host) Demo.env Demo.null_datos
     = (Normal None,
        mkWorld VNull VNull VNull (Some false) None
          (localStorage Demo.null_datos) [] Demo.now)).
Proof.
  split; [|split; repeat split].
  intros Hclaim.
  destruct (Hclaim Demo.blank_tipo) as [_ Hlogged].
  - exists "tok.ok", "", "{}", (VObj []). repeat split.
  - vm_compute in Hlogged. discriminate Hlogged.
Qed.

(** C2 at its failing input: the token "tok.nodata" decodes to claims
    without a data section, and the record [{nombre: "Ana"}] is not used. *)
Lemma login_without_data_logs_out_witness :
  let usr := VObj [("nombre", VStr "Ana")] in
  is_record usr = true /\
  jwtDecode (Host := Demo.host) "tok.nodata" = Some Demo.claims_nodata /\
  get_prop Demo.claims_nodata "data" = Normal VUndefined /\
  observable
    (world_after (login (H := Demo.host) Demo.env "tok.nodata" usr) Demo.fresh)
    = (VNull, VNull, VNull, Some false, None, ∅) /\
  stored_datos Demo.env
    (world_after (login (H := Demo.host) Demo.env "tok.nodata" usr) Demo.fresh)
    = None.
Proof.
  intros usr. split; [reflexivity|]. split; [reflexivity|].
  split; [reflexivity|].
  destruct (login_without_data_logs_out (H := Demo.host) Demo.env
              "tok.nodata" usr Demo.claims_nodata Demo.fresh
              eq_refl eq_refl (or_introl eq_refl))
    as (_ & _ & Hobs & Hdatos).
  split; [exact Hobs | exact Hdatos].
Defined.

(** A malformed token on a logged-in instance. *)
Lemma failed_login_is_logout_witness :
  let usr := VObj [("nombre", VStr "Ana")] in
  is_record usr = true /\
  jwtDecode (Host := Demo.host) "garbage" = None /\
  result_of (login (H := Demo.host) Demo.env "garbage" usr) Demo.session
    = Normal tt /\
  observable (world_after (login (H := Demo.host) Demo.env "garbage" usr)
                Demo.session)
    = observable (world_after logout Demo.session) /\
  observable (world_after (login (H := Demo.host) Demo.env "garbage" usr)
                Demo.session)
    = (VNull, VNull, VNull, Some false, None, ∅).
Proof.
  intros usr. split; [reflexivity|]. split; [reflexivity|].
  apply (failed_login_is_logout (H := Demo.host) Demo.env "garbage" usr
           Demo.session); reflexivity.
Defined.

(** [login(token, "not-an-object")] on a logged-in instance. *)
Lemma login_rejects_non_record_witness :
  is_record (VStr "not-an-object") = false /\
  result_of (login (H := Demo.host) Demo.env "tok.ok" (VStr "not-an-object"))
    Demo.session = Normal tt /\
  observable (world_after
                (login (H := Demo.host) Demo.env "tok.ok"
                   (VStr "not-an-object")) Demo.session)
    = observable Demo.session.
Proof.
  split; [reflexivity|].
  destruct (login_rejects_non_record (H := Demo.host) Demo.env "tok.ok"
              (VStr "not-an-object") Demo.session eq_refl)
    as (Hres & Hobs & _).
  split; [exact Hres | exact Hobs].
Defined.

(** A new instance over the storage of a live session: the stored token
    would pass the expiry check, and the session is destroyed all the same. *)
Lemma checkLogged_destroys_unloaded_session_witness :
  TEST_ Demo.env = false /\
  logged Demo.revisit = None /\ token Demo.revisit = None /\
  stored_token Demo.env Demo.revisit = Some "tok.ok" /\
  result_of (verificarToken (H := Demo.host)) Demo.session = Normal true /\
  result_of (checkLogged (H := Demo.host) Demo.env [Num 2]) Demo.revisit
    = Normal false /\
  localStorage
    (world_after (checkLogged (H := Demo.host) Demo.env [Num 2])
       Demo.revisit) = ∅.
Proof.
  split; [reflexivity|]. split; [reflexivity|]. split; [reflexivity|].
  split; [reflexivity|]. split; [reflexivity|].
  destruct (checkLogged_destroys_unloaded_session (H := Demo.host) Demo.env
              [Num 2] Demo.revisit "tok.ok" eq_refl eq_refl eq_refl eq_refl)
    as (Hres & _ & Hsto & _).
  split; [exact Hres | exact Hsto].
Defined.

(** The live token of the examples, checked before its expiry. *)
Lemma verificarToken_spec_witness :
  logged Demo.session <> None /\
  token Demo.session = Some "tok.ok" /\
  jwtDecode (Host := Demo.host) "tok.ok" = Some Demo.claims_ok /\
  (result_of (verificarToken (H := Demo.host)) Demo.session = Normal true <->
   clock Demo.session <= 2000000000 * 1000).
Proof.
  split; [discriminate|]. split; [reflexivity|]. split; [reflexivity|].
  destruct (verificarToken_spec (H := Demo.host) Demo.session)
    as (_ & _ & _ & _ & Hdec).
  destruct (Hdec "tok.ok" Demo.claims_ok) as [_ Hint];
    [discriminate | reflexivity | discriminate | reflexivity |].
  apply (Hint 2000000000); [reflexivity | vm_compute; discriminate].
Defined.

(** A logged-in instance of user type 2, and a new instance in test mode. *)
Lemma checkLogged_roles_witness :
  reachable (H := Demo.host) Demo.env Demo.session /\
  TEST_ Demo.env = false /\
  result_of (checkLogged (H := Demo.host) Demo.env [Num 1; Num 2; Num 3])
    Demo.session = Normal true /\
  logged Demo.session = Some true /\
  TEST_ Demo.env_test = true /\
  checkLogged (H := Demo.host) Demo.env_test [Num 9] Demo.fresh
    = (Normal true, Demo.fresh).
Proof.
  assert (Hreach : reachable (H := Demo.host) Demo.env Demo.session).
  { exact (reachable_step (H := Demo.host) Demo.env
             (Call (Login "tok.ok" (VObj [("nombre", VStr "Ana")])))
             Demo.fresh
             (reachable_initial (H := Demo.host) Demo.env ∅ Demo.now)). }
  destruct (checkLogged_roles (H := Demo.host) Demo.env) as [Hrole _].
  destruct (checkLogged_roles (H := Demo.host) Demo.env_test) as [_ Htest].
  split; [exact Hreach|]. split; [reflexivity|]. split; [reflexivity|].
  split; [exact (proj1 (Hrole Demo.session Hreach eq_refl eq_refl))|].
  split; [reflexivity|].
  exact (Htest [Num 9] Demo.fresh eq_refl).
Defined.

(** Reloading the storage of a live session, and a storage whose
    user-type id is empty. *)
Lemma getLocalData_cases_witness :
  stored_token Demo.env Demo.revisit = Some "tok.ok" /\
  stored_tipo Demo.env Demo.revisit = Some "2" /\
  stored_datos Demo.env Demo.revisit = Some Demo.datos_text /\
  JSON_parse (Host := Demo.host) Demo.datos_text = Some Demo.datos /\
  truthy Demo.datos = true /\
  result_of (getLocalData (H := Demo.host) Demo.env) Demo.revisit
    = Normal (Some "tok.ok") /\
  logged (world_after (getLocalData (H := Demo.host) Demo.env) Demo.revisit)
    = Some true /\
  filled (stored_tipo Demo.env Demo.blank_tipo) = false /\
  result_of (getLocalData (H := Demo.host) Demo.env) Demo.blank_tipo
    = Normal None.
Proof.
  split; [reflexivity|]. split; [reflexivity|]. split; [reflexivity|].
  split; [reflexivity|]. split; [reflexivity|].
  destruct (getLocalData_cases (H := Demo.host) Demo.env Demo.revisit)
    as (_ & Hpresent & _).
  destruct (Hpresent "tok.ok" "2" Demo.datos_text Demo.datos)
    as (Hres & Hlog & _);
    [reflexivity | reflexivity | reflexivity | discriminate | discriminate
    | vm_compute; discriminate | reflexivity | reflexivity |].
  split; [exact Hres|]. split; [exact Hlog|]. split; [reflexivity|].
  destruct (getLocalData_cases (H := Demo.host) Demo.env Demo.blank_tipo)
    as (Hmissing & _).
  exact (proj1 (Hmissing (or_intror (or_introl eq_refl)))).
Defined.

(** A logged-in instance run through calls that all end logged out. *)
Lemma logged_state_machine_witness :
  logged Demo.session <> None /\
  logged (run (H := Demo.host) Demo.env
            [Call (CheckLogged [Num 7]); Outside ∅ 0; Call GetLocalData;
             Call (Login "garbage" (VObj []))]
            Demo.session) <> None /\
  logged (step (H := Demo.host) Demo.env
            (Call (Login "garbage" (VObj []))) Demo.session) = Some false.
Proof.
  destruct (logged_state_machine (H := Demo.host) Demo.env)
    as (_ & _ & _ & Hfalse & Hknown).
  split; [discriminate|]. split.
  - apply Hknown. discriminate.
  - apply Hfalse. right; left. exists "garbage", (VObj []).
    repeat split.
Defined.

End UseUserSpec.


(* ===================================================================== *)
(** ** Further properties of useEnv *)
(* ===================================================================== *)

Module UseEnvMore.
Import Js UseEnv.

(** X1. [useEnv] reads the entries of one mode only: two environments in
    the same mode that agree on the six entries of that mode give the
    same record, whatever the entries of the other mode are. *)
Theorem useEnv_reads_one_mode (e1 e2 : ImportMetaEnv) :
  DEV e1 = DEV e2 ->
  (DEV e1 = true ->
   VITE_BASENAME_DEV e1 = VITE_BASENAME_DEV e2 /\
   VITE_BASE_URL_DEV e1 = VITE_BASE_URL_DEV e2 /\
   VITE_URL_REDIRECT_DEV e1 = VITE_URL_REDIRECT_DEV e2 /\
   VITE_URL_OAUTH_DEV e1 = VITE_URL_OAUTH_DEV e2 /\
   VITE_CLIENTE_ID_DEV e1 = VITE_CLIENTE_ID_DEV e2 /\
   VITE_TEST_DEV e1 = VITE_TEST_DEV e2) ->
  (DEV e1 = false ->
   VITE_BASENAME e1 = VITE_BASENAME e2 /\
   VITE_BASE_URL e1 = VITE_BASE_URL e2 /\
   VITE_URL_REDIRECT e1 = VITE_URL_REDIRECT e2 /\
   VITE_URL_OAUTH e1 = VITE_URL_OAUTH e2 /\
   VITE_CLIENTE_ID e1 = VITE_CLIENTE_ID e2 /\
   VITE_TEST e1 = VITE_TEST e2) ->
  useEnv e1 = useEnv e2.
Proof.
  intros Hmode Hdev Hprod. unfold useEnv. rewrite <- Hmode.
  destruct (DEV e1).
  - destruct (Hdev eq_refl) as (-> & -> & -> & -> & -> & ->). reflexivity.
  - destruct (Hprod eq_refl) as (-> & -> & -> & -> & -> & ->). reflexivity.
Qed.

Lemma useEnv_reads_one_mode_witness :
  VITE_BASENAME Demo.env_dev <> VITE_BASENAME Demo.env_dev' /\
  VITE_TEST Demo.env_dev <> VITE_TEST Demo.env_dev' /\
  useEnv Demo.env_dev = useEnv Demo.env_dev'.
Proof.
  split; [discriminate|]. split; [discriminate|].
  apply (useEnv_reads_one_mode Demo.env_dev Demo.env_dev').
  - reflexivity.
  - intros _. repeat split.
  - intros Hfalse. discriminate Hfalse.
Defined.

(** X2. [TEST] is true for exactly sixteen entries: the four letters of
    "true", each in lower or upper case. No other string, however it is
    lowered, turns test mode on. *)
Theorem TEST_sixteen_spellings (env : ImportMetaEnv) :
  TEST (useEnv env) = true <->
  exists c1 c2 c3 c4,
    test_entry env = Some (String c1 (String c2 (String c3 (String c4 "")))) /\
    (c1 = "t" \/ c1 = "T")%char /\ (c2 = "r" \/ c2 = "R")%char /\
    (c3 = "u" \/ c3 = "U")%char /\ (c4 = "e" \/ c4 = "E")%char.
Proof.
  rewrite UseEnvSpec.TEST_useEnv. unfold test_flag.
  destruct (test_entry env) as [s|].
  - rewrite UseEnvSpec.or_empty_Some, String.eqb_eq.
    rewrite UseEnvSpec.toLowerCase_true_spellings. split.
    + intros (c1 & c2 & c3 & c4 & -> & Hc). exists c1, c2, c3, c4. auto.
    + intros (c1 & c2 & c3 & c4 & [= ->] & Hc). exists c1, c2, c3, c4. auto.
  - split; [discriminate | intros (c1 & c2 & c3 & c4 & [=] & _)].
Qed.

End UseEnvMore.

(* ===================================================================== *)
(** ** Further properties of useUser *)
(* ===================================================================== *)

Module UseUserMore.
Import Js UseEnv UseUser UseUserSpec.

(** *** Decimal text and [parseInt] *)

Lemma pretty_N_char_digit (d : N) :
  (d < 10)%N ->
  digit_of (pretty_N_char d) = Some (Z.of_N d) /\
  is_white (pretty_N_char d) = false /\
  pretty_N_char d <> "-"%char /\ pretty_N_char d <> "+"%char.
Proof.
  intros Hd.
  assert (Hcases : (d = 0 \/ d = 1 \/ d = 2 \/ d = 3 \/ d = 4 \/ d = 5 \/
                    d = 6 \/ d = 7 \/ d = 8 \/ d = 9)%N) by lia.
  repeat (destruct Hcases as [-> | Hcases]); [..|subst d];
    (split; [reflexivity|]; split; [reflexivity|]; split; discriminate).
Qed.

(** The text of a positive number starts with a digit. *)
Lemma pretty_N_go_head (x : N) (s : string) :
  (0 < x)%N ->
  exists d rest, (d < 10)%N /\ pretty_N_go x s = String (pretty_N_char d) rest.
Proof.
  revert s. induction (N.lt_wf_0 x) as [x _ IH]. intros s Hx.
  rewrite pretty_N_go_step by assumption.
  destruct (N.eq_dec (x `div` 10)%N 0%N) as [E | E].
  - rewrite E, pretty_N_go_0. exists (x `mod` 10)%N, s.
    split; [apply N.mod_lt; discriminate | reflexivity].
  - apply IH; [apply N.div_lt; lia | now apply N.neq_0_lt_0].
Qed.

(** Reading the text of a positive number digit by digit gives it back. *)
Lemma digits_pretty_N_go (x : N) :
  (0 < x)%N ->
  forall s, exists k : Z,
    0 <= k /\
    forall acc, digits acc (pretty_N_go x s)
                = digits (Some (10 ^ k * default 0 acc + Z.of_N x)) s.
Proof.
  induction (N.lt_wf_0 x) as [x _ IH]. intros Hx s.
  rewrite pretty_N_go_step by assumption.
  assert (Hmod : (x `mod` 10 < 10)%N) by (apply N.mod_lt; discriminate).
  destruct (pretty_N_char_digit _ Hmod) as (Hdig & _).
  assert (Hx10 : Z.of_N x = 10 * Z.of_N (x `div` 10)%N + Z.of_N (x `mod` 10)%N).
  { rewrite (N.div_mod x 10) at 1 by discriminate. lia. }
  destruct (N.eq_dec (x `div` 10)%N 0%N) as [E | E].
  - exists 1. split; [lia|]. intros acc.
    rewrite E, pretty_N_go_0. cbn [digits]. rewrite Hdig.
    f_equal. f_equal. rewrite Hx10, E. lia.
  - destruct (IH (x `div` 10)%N) with (s := String (pretty_N_char (x `mod` 10)%N) s)
      as (k & Hk & Hread); [apply N.div_lt; lia | now apply N.neq_0_lt_0 |].
    exists (k + 1). split; [lia|]. intros acc.
    rewrite Hread. cbn [digits]. rewrite Hdig. cbn [default].
    f_equal. f_equal. unfold id.
    rewrite Hx10, Z.pow_add_r, Z.pow_1_r by lia. ring.
Qed.

Lemma digits_text (p : positive) :
  digits None (pretty_N_go (N.pos p) "") = Some (Z.pos p).
Proof.
  destruct (digits_pretty_N_go (N.pos p)) with (s := "") as (k & _ & Hread);
    [reflexivity|].
  rewrite Hread. cbn [digits default]. f_equal. lia.
Qed.

Lemma parseInt_string_positive (p : positive) :
  safe_integer (Z.pos p) = true ->
  parseInt_string (pretty_N_go (N.pos p) "") = Num (Z.pos p).
Proof.
  intros Hsafe.
  destruct (pretty_N_go_head (N.pos p) "") as (d & rest & Hd & Hhead);
    [reflexivity|].
  destruct (pretty_N_char_digit d Hd) as (_ & Hw & Hminus & Hplus).
  pose proof (digits_text p) as Hdigits. rewrite Hhead in Hdigits.
  unfold parseInt_string. rewrite Hhead. cbn [skip_white]. rewrite Hw.
  assert (Hsign :
            match String (pretty_N_char d) rest with
            | String "-"%char r => (-1, r)
            | String "+"%char r => (1, r)
            | _ => (1, String (pretty_N_char d) rest)
            end = (1, String (pretty_N_char d) rest)).
  { destruct (pretty_N_char d) as [[] [] [] [] [] [] [] []];
      try reflexivity; contradiction. }
  rewrite Hsign, Hdigits. unfold nearest_double.
  change (1 * Z.pos p) with (Z.pos p). now rewrite Hsafe.
Qed.

Lemma parseInt_string_negative (p : positive) :
  safe_integer (Z.neg p) = true ->
  parseInt_string (String "-" (pretty_N_go (N.pos p) "")) = Num (Z.neg p).
Proof.
  intros Hsafe.
  unfold parseInt_string. cbn [skip_white].
  change (is_white "-") with false. cbv beta iota.
  rewrite digits_text. unfold nearest_double.
  change (-1 * Z.pos p) with (Z.neg p). now rewrite Hsafe.
Qed.

(** Reading back the decimal text of an integer every double holds
    exactly gives the integer. *)
Lemma parseInt_pretty (z : Z) :
  safe_integer z = true -> parseInt (Some (pretty z)) = Num z.
Proof.
  intros Hsafe. unfold parseInt. cbn [default from_option id].
  destruct z as [|p|p].
  - reflexivity.
  - now apply parseInt_string_positive.
  - now apply parseInt_string_negative.
Qed.

(** The string of an integer every double holds exactly is its decimal
    text, so [parseInt(String(n), 10)] is [n] for those. *)
Lemma ToString_safe_integer `{Host} (z : Z) :
  safe_integer z = true -> ToString (VNum (Num z)) = Normal (pretty z).
Proof. intros Hz. cbn [ToString number_to_string]. now rewrite Hz. Qed.


Lemma assoc_remove_key (k k' : string) (props : list (string * value)) :
  assoc k' (remove_key k props) = if String.eqb k k' then None else assoc k' props.
Proof.
  unfold remove_key.
  induction props as [|[k0 v0] props IH]; cbn [List.filter assoc fst].
  - now destruct (String.eqb k k').
  - destruct (String.eqb_spec k0 k) as [-> | Hne]; cbn [negb assoc].
    + rewrite IH. destruct (String.eqb_spec k k'); reflexivity.
    + rewrite IH. destruct (String.eqb_spec k0 k') as [-> | Hne'].
      * destruct (String.eqb_spec k k'); [congruence | reflexivity].
      * reflexivity.
Qed.

Section Hook.
Context `{Host} (env : ImportMetaEnv).

#[local] Arguments key : simpl never.

Ltac unfold_hook :=
  unfold localStorage_setItem in *;
  unfold mbind, mret, M_bind, M_ret, try_catch, throw, lift, get_world,
    setUsuario, setPersona, setTipoUsuarioId, setLogged, setToken,
    localStorage_getItem, localStorage_clear,
    console_error, new_Date, modify, with_storage, result_of,
    world_after in *.

(** *** Helpers *)

Lemma login_total (tok : string) (usr : value) (w : World) :
  result_of (login env tok usr) w = Normal tt.
Proof.
  unfold result_of. destruct (is_record usr) eqn:Hrec.
  - destruct (login_payload tok) as [[[data tipo] text]|] eqn:Hpay.
    + now rewrite (login_ok env tok usr data tipo text).
    + now rewrite login_failed.
  - now rewrite login_rejected.
Qed.

Lemma getUser_truthy (v : value) (w : World) :
  truthy v = true ->
  getUser env v w =
  (Normal tt,
   mkWorld (VObj (remove_key "persona" (spread v)))
     (match get_prop v "persona" with Normal p => p | Throw _ => VUndefined end)
     (tipoUsuarioId w) (logged w) (token w) (localStorage w) (console w)
     (clock w)).
Proof.
  intros Htr. unfold getUser. unfold_hook. rewrite !Htr.
  destruct (truthy_get_prop v "persona" Htr) as [p Hp]. rewrite !Hp.
  reflexivity.
Qed.

Lemma getUser_total (v : value) (w : World) :
  result_of (getUser env v) w = Normal tt.
Proof.
  destruct (truthy v) eqn:Htr.
  - unfold result_of. now rewrite getUser_truthy.
  - destruct (getUsuarioFromStorage_total env w) as (v' & w1 & Hu & _).
    unfold getUser. unfold_hook. rewrite Htr, Hu.
    destruct (truthy v') eqn:Htr'.
    + destruct (truthy_get_prop v' "persona" Htr') as [p Hp]. rewrite Hp.
      reflexivity.
    + reflexivity.
Qed.

Lemma getTipoUsuario_total (v : value) (w : World) :
  exists r, result_of (getTipoUsuario env v) w = Normal r.
Proof.
  unfold getTipoUsuario. unfold_hook. destruct (truthy v); eauto.
Qed.

(** The string in the payload is the string of the user-type id. *)
Lemma login_payload_text
    (tok : string) (data tipo : value) (text : string) :
  login_payload tok = Some (data, tipo, text) -> ToString tipo = Normal text.
Proof.
  unfold login_payload. intros Hpay.
  destruct (jwtDecode tok) as [decoded|]; [|discriminate].
  destruct (get_prop decoded "data") as [data'|]; [|discriminate].
  destruct (get_prop data' "tipo_usuario_id") as [tipo'|]; [|discriminate].
  destruct (ToString tipo') as [text'|] eqn:Htext; [|discriminate].
  now injection Hpay as _ <- <-.
Qed.

(** *** No exception leaves the hook *)

(** X3. Whatever the world, for every token string, every user
    argument and every list of numbers, none of the functions of the
    hook ends with an exception: what [jwtDecode], [JSON.parse], a
    property read on null or undefined or a conversion to string or
    number throws inside them is caught. *)
Theorem no_exception_escapes (w : World) :
  (forall tok usr, result_of (login env tok usr) w = Normal tt) /\
  result_of logout w = Normal tt /\
  (exists r, result_of (getLocalData env) w = Normal r) /\
  (exists b, result_of verificarToken w = Normal b) /\
  (forall l, exists b, result_of (checkLogged env l) w = Normal b) /\
  (exists v, result_of (getUsuarioFromStorage env) w = Normal v) /\
  (forall v, result_of (getUser env v) w = Normal tt) /\
  (forall v, exists r, result_of (getTipoUsuario env v) w = Normal r).
Proof.
  split; [intros; apply login_total|]. split; [reflexivity|].
  split.
  { destruct (getLocalData_total env w) as (r & w' & Hrun & _).
    exists r. unfold result_of. now rewrite Hrun. }
  split.
  { destruct (verificarToken_total w) as (b & w' & Hrun & _).
    exists b. unfold result_of. now rewrite Hrun. }
  split; [intros l; apply checkLogged_total|].
  split.
  { destruct (getUsuarioFromStorage_total env w) as (v & w' & Hrun & _).
    exists v. unfold result_of. now rewrite Hrun. }
  split; [intros v; apply getUser_total | intros v; apply getTipoUsuario_total].
Qed.

(** *** What login writes *)

(** X5. A [login] that is rejected, or that gets through its [try]
    block (the token decodes, the data section and its user-type id can
    be read, the user-type id can be brought to a string), leaves every
    storage entry outside the three keys of the hook as it was. *)
Theorem login_keeps_other_keys
    (tok : string) (usr : value) (w : World) (k : string) :
  ~ session_key env k ->
  is_record usr = false \/ is_Some (login_payload tok) ->
  localStorage (world_after (login env tok usr) w) !! k = localStorage w !! k.
Proof.
  intros Hk Hpath. unfold world_after.
  destruct (is_record usr) eqn:Hrec.
  - destruct Hpath as [[=] | [[[data tipo] text] Hpay]].
    rewrite (login_ok env tok usr data tipo text) by assumption.
    unfold logged_in. cbn [snd localStorage].
    rewrite !lookup_insert_ne; [reflexivity | | |];
      intros <-; apply Hk; unfold session_key; auto.
  - now rewrite login_rejected.
Qed.

(** X7. After a [login] that gets through its [try] block, the
    user-type slot and the persisted user-type entry say the same thing
    as strings. The slot holds the value from the claims when that value
    is truthy; for a falsy one (a missing [tipo_usuario_id], 0, the empty
    string) it holds the string that was persisted, such as "undefined"
    or "0". *)
Theorem login_tipo_slot
    (tok : string) (usr data tipo : value) (text : string) (w : World) :
  is_record usr = true ->
  login_payload tok = Some (data, tipo, text) ->
  let w' := world_after (login env tok usr) w in
  ToString tipo = Normal text /\
  stored_tipo env w' = Some text /\
  ToString (tipoUsuarioId w') = Normal text /\
  (truthy tipo = true -> tipoUsuarioId w' = tipo) /\
  (truthy tipo = false -> tipoUsuarioId w' = VStr text).
Proof.
  intros Hrec Hpay w'.
  pose proof (login_payload_text tok data tipo text Hpay) as Htext.
  destruct (login_persists env tok usr data tipo text w Hrec Hpay)
    as (_ & Hst & _).
  fold w' in Hst. split; [exact Htext|]. split; [exact Hst|].
  subst w'. unfold world_after.
  rewrite (login_ok env tok usr data tipo text) by assumption.
  unfold logged_in. cbn [snd tipoUsuarioId].
  destruct (truthy tipo); repeat split; intros; congruence.
Qed.

(** X4. A [login] with a non-null record that gets through its [try]
    block (the token decodes, the data section and its user-type id can
    be read, the user-type id can be brought to a string) returns
    normally and establishes the session: the three entries hold the
    token, the string of the user-type id and the JSON text of the user
    data; [logged] is true and the token slot holds the token. The user
    data is the data section when it is truthy and the record passed in
    when it is a falsy value. *)
Theorem login_establishes_session
    (tok : string) (usr data tipo : value) (text : string) (w : World) :
  is_record usr = true ->
  login_payload tok = Some (data, tipo, text) ->
  let w' := world_after (login env tok usr) w in
  let usuarioData := if truthy data then data else usr in
  result_of (login env tok usr) w = Normal tt /\
  stored_token env w' = Some tok /\
  ToString tipo = Normal text /\ stored_tipo env w' = Some text /\
  stored_datos env w' = Some (JSON_text usuarioData) /\
  logged w' = Some true /\ token w' = Some tok /\
  (truthy data = true -> usuarioData = data) /\
  (truthy data = false -> usuarioData = usr).
Proof.
  intros Hrec Hpay w' usuarioData.
  pose proof (login_payload_text tok data tipo text Hpay) as Htext.
  destruct (login_persists env tok usr data tipo text w Hrec Hpay)
    as (Ht & Hti & Hd & Hl & Hs & _).
  fold w' usuarioData in Ht, Hti, Hd, Hl, Hs.
  split; [apply login_total|]. repeat split; try assumption.
  - subst usuarioData. now intros ->.
  - subst usuarioData. now intros ->.
Qed.

(** X6. When the user data of a [login] that gets through its [try]
    block is an object,
    the persona slot holds its [persona] property (undefined when there
    is none), and the usuario slot holds an object without a [persona]
    property that agrees with the user data on every other property. *)
Theorem login_splits_persona
    (tok : string) (usr data tipo : value) (text : string)
    (props : list (string * value)) (w : World) :
  is_record usr = true ->
  login_payload tok = Some (data, tipo, text) ->
  (if truthy data then data else usr) = VObj props ->
  let w' := world_after (login env tok usr) w in
  persona w' = default VUndefined (assoc "persona" props) /\
  get_prop (usuario w') "persona" = Normal VUndefined /\
  (forall k, k <> "persona" ->
             get_prop (usuario w') k = get_prop (VObj props) k).
Proof.
  intros Hrec Hpay Hobj w'. subst w'. unfold world_after.
  rewrite (login_ok env tok usr data tipo text) by assumption.
  unfold logged_in. cbn [snd persona usuario]. rewrite Hobj.
  cbn [get_prop spread]. split; [reflexivity|]. split.
  - rewrite assoc_remove_key. now rewrite String.eqb_refl.
  - intros k Hk. rewrite assoc_remove_key.
    destruct (String.eqb_spec "persona" k); [congruence | reflexivity].
Qed.


(** X10. [login], then [checkLogged] from the render that follows.
    After a [login] that gets through with a non-empty token whose claims
    carry as user-type id an integer [n] of magnitude at most 2^53 and an
    integer expiry not before the clock, a [checkLogged] that reads the
    slots that login set (a call from the same render still reads the
    slots from before the login), outside test mode and with nothing
    written from outside in between, returns true for the empty list,
    returns whether [n] is in the list otherwise, and changes neither the
    slots nor the storage. *)
Theorem login_then_checkLogged
    (tok : string) (usr decoded data : value) (n e : Z)
    (l : list number) (w : World) :
  TEST_ env = false ->
  is_record usr = true ->
  tok <> "" ->
  jwtDecode tok = Some decoded ->
  get_prop decoded "data" = Normal data ->
  get_prop data "tipo_usuario_id" = Normal (VNum (Num n)) ->
  safe_integer n = true ->
  get_prop decoded "exp" = Normal (VNum (Num e)) ->
  Z.abs (e * 1000) <= 8640000000000000 ->
  clock w <= e * 1000 ->
  let w' := world_after (login env tok usr) w in
  result_of (checkLogged env l) w' =
    Normal (if (0 <? length l)%nat then includes l (Num n) else true) /\
  observable (world_after (checkLogged env l) w') = observable w'.
Proof.
  intros HT Hrec Htok Hdec Hdata Htipo Hsafe Hexp Hrange Hclock w'.
  assert (Hpay : login_payload tok = Some (data, VNum (Num n), pretty n)).
  { unfold login_payload.
    now rewrite Hdec, Hdata, Htipo, (ToString_safe_integer n Hsafe). }
  destruct (login_persists env tok usr data (VNum (Num n)) (pretty n) w
              Hrec Hpay)
    as (Hst & Hsti & _ & Hl & Hs & _).
  fold w' in Hst, Hsti, Hl, Hs.
  assert (Hclk : clock w' = clock w).
  { subst w'. unfold world_after.
    now rewrite (login_ok env tok usr data (VNum (Num n)) (pretty n)). }
  assert (Hv : result_of verificarToken w' = Normal true).
  { rewrite (verificarToken_decoded w' tok decoded);
      [|congruence|assumption..].
    rewrite Hexp. unfold expiry_time. cbn [ToNumber mul TimeClip].
    apply Z.leb_le in Hrange. rewrite Hrange. cbn [ge].
    rewrite Hclk. apply Z.leb_le in Hclock. now rewrite Hclock. }
  assert (Hf : filled (stored_token env w') = true).
  { rewrite Hst. now apply filled_nonempty. }
  destruct (checkLogged_valid env l w' HT Hf Hv) as [Hres Hobs].
  split; [|exact Hobs].
  now rewrite Hres, Hsti, (parseInt_pretty n Hsafe).
Qed.

(** *** checkLogged and the expiry check *)

(** [verificarToken] reads the [logged] slot, the token slot and the
    clock, and nothing else. *)
Lemma verificarToken_reads (w1 w2 : World) :
  logged w1 = logged w2 -> token w1 = token w2 -> clock w1 = clock w2 ->
  result_of verificarToken w1 = result_of verificarToken w2.
Proof.
  intros Hl Ht Hc. unfold verificarToken, jwtDecode_call. unfold_hook.
  rewrite Hl, Ht.
  destruct (bool_decide (logged w2 = None) ||
            negb (truthy (of_nullable (token w2)))); [reflexivity|].
  destruct (token w2) as [t|]; [|reflexivity].
  destruct (jwtDecode t) as [decoded|]; [|reflexivity].
  destruct (get_prop decoded "exp") as [e|]; [|reflexivity].
  destruct (ToNumber e); [|reflexivity].
  cbn [fst]. now rewrite Hc.
Qed.

Lemma verificarToken_bool (w : World) :
  result_of verificarToken w = Normal true \/
  result_of verificarToken w = Normal false.
Proof.
  destruct (verificarToken_total w) as (b & w' & Hrun & _).
  unfold result_of. rewrite Hrun. destruct b; auto.
Qed.

(** X9. [checkLogged] checks that a token is stored, never which one:
    the expiry check runs on the token in the slot. If other code
    replaces the storage by one that still holds a non-empty string
    under the token key and the same user-type entry, the answer of
    [checkLogged] is the same, even when that string is no token at
    all. *)
Theorem checkLogged_never_decodes_stored_token
    (l : list number) (w : World) (storage' : gmap string string) :
  filled (stored_token env w) = true ->
  filled (storage' !! key env "_token") = true ->
  storage' !! key env "_tipo_usuario_id" = stored_tipo env w ->
  result_of (checkLogged env l) (step env (Outside storage' (clock w)) w)
    = result_of (checkLogged env l) w.
Proof.
  intros Hf Hf' Htipo.
  set (w2 := step env (Outside storage' (clock w)) w).
  destruct (TEST_ env) eqn:HT.
  { unfold result_of. now rewrite !checkLogged_test. }
  assert (Hsame : result_of verificarToken w2 = result_of verificarToken w).
  { now apply verificarToken_reads. }
  assert (Hf2 : filled (stored_token env w2) = true) by exact Hf'.
  destruct (verificarToken_bool w) as [Hv | Hv].
  - destruct (checkLogged_valid env l w HT Hf Hv) as [-> _].
    rewrite <- Hsame in Hv.
    destruct (checkLogged_valid env l w2 HT Hf2 Hv) as [-> _].
    unfold stored_tipo at 1. cbn [w2 step localStorage]. now rewrite Htipo.
  - destruct (checkLogged_invalid env l w HT Hf Hv) as [-> _].
    rewrite <- Hsame in Hv.
    now destruct (checkLogged_invalid env l w2 HT Hf2 Hv) as [-> _].
Qed.


(** X12. Expiry only goes one way: if [verificarToken] answers true at
    some time, it answers true at every earlier time with the same slots;
    so once it has answered false for an instance, it keeps answering
    false as the clock advances, until the slots are set again. *)
Theorem verificarToken_monotone (w : World) (later : Z) :
  clock w <= later ->
  result_of verificarToken (at_time later w) = Normal true ->
  result_of verificarToken w = Normal true.
Proof.
  intros Hle Htrue.
  destruct (verificarToken_true _ Htrue) as (Hk & Hheld & Hunexp).
  destruct Hunexp as (t & decoded & e & x & Ht & Hdec & He & Hx & Hnow).
  cbn [at_time token logged clock] in *.
  apply filled_Some in Hheld as (t' & Ht' & Hne).
  assert (t' = t) by congruence. subst t'.
  rewrite (verificarToken_decoded w t decoded) by assumption.
  rewrite He, Hx. cbn [ge]. f_equal. apply Z.leb_le. lia.
Qed.

(** X13. An expired session is destroyed on the next check: with a token
    in the slot whose integer expiry is before the clock, [checkLogged]
    outside test mode returns false, whatever the list, and leaves the
    slots and the storage as [logout] leaves them. *)
Theorem checkLogged_expired
    (l : list number) (w : World) (t : string) (decoded : value) (e : Z) :
  TEST_ env = false ->
  logged w <> None -> token w = Some t -> t <> "" ->
  jwtDecode t = Some decoded ->
  get_prop decoded "exp" = Normal (VNum (Num e)) ->
  e * 1000 < clock w ->
  result_of (checkLogged env l) w = Normal false /\
  observable (world_after (checkLogged env l) w)
    = observable (world_after logout w).
Proof.
  intros HT Hk Ht Hne Hdec Hexp Hlate.
  assert (Hv : result_of verificarToken w = Normal false).
  { rewrite (verificarToken_decoded w t decoded) by assumption.
    rewrite Hexp. unfold expiry_time. cbn [ToNumber mul TimeClip].
    destruct (Z.abs (e * 1000) <=? 8640000000000000); [|reflexivity].
    cbn [ge]. f_equal. apply Z.leb_gt. exact Hlate. }
  destruct (filled (stored_token env w)) eqn:Hf.
  - now apply checkLogged_invalid.
  - unfold result_of, world_after. now rewrite checkLogged_no_token.
Qed.

(** *** Invariants over sequences of calls *)

Lemma observable_all (w w' : World) :
  observable w' = observable w ->
  usuario w' = usuario w /\ persona w' = persona w /\
  tipoUsuarioId w' = tipoUsuarioId w /\ logged w' = logged w /\
  token w' = token w /\ localStorage w' = localStorage w.
Proof. unfold observable. intros [= E1 E2 E3 E4 E5 E6]. auto 10. Qed.

(** What a call does to slots and storage, in four shapes: nothing, a
    logout, a login that got through, a load that found a session. *)
Lemma exec_shapes (c : call) (w : World) :
  observable (exec env c w) = observable w \/
  observable (exec env c w) = observable (logged_out w) \/
  (exists tok usr data tipo text,
      c = Login tok usr /\ is_record usr = true /\
      login_payload tok = Some (data, tipo, text) /\
      exec env c w = logged_in env tok usr data tipo text w) \/
  (c = GetLocalData /\
   ((slots_cleared (exec env c w) /\
     (localStorage (exec env c w) = localStorage w \/
      localStorage (exec env c w) = ∅)) \/
    (logged (exec env c w) = Some true /\
     localStorage (exec env c w) = localStorage w /\
     token (exec env c w) = stored_token env w /\
     is_Some (stored_token env w) /\
     is_Some (stored_tipo env w) /\ is_Some (stored_datos env w)))).
Proof.
  destruct c as [tok usr | | | | l]; cbn [exec]; unfold world_after.
  - destruct (is_record usr) eqn:Hrec.
    + destruct (login_payload tok) as [[[data tipo] text]|] eqn:Hpay.
      * right; right; left. exists tok, usr, data, tipo, text.
        rewrite (login_ok env tok usr data tipo text) by assumption. auto.
      * right; left. now rewrite login_failed.
    + left. now rewrite login_rejected.
  - right; left. reflexivity.
  - right; right; right. split; [reflexivity|].
    destruct (getUsuarioFromStorage_total env w)
      as (v & w1 & Hu & _ & _ & _ & _ & _ & _ & Hsto).
    destruct (filled (stored_token env w) && filled (stored_tipo env w)
              && truthy v) eqn:Hc.
    + right.
      apply andb_true_iff in Hc as [Hc Hv].
      apply andb_true_iff in Hc as [Ht Hti].
      apply filled_Some in Ht as (t & Ht & Hnt).
      apply filled_Some in Hti as (ti & Hti & Hnti).
      destruct (filled (stored_datos env w)) eqn:Hd.
      * apply filled_Some in Hd as (d & Hd & Hnd).
        destruct (JSON_parse d) as [v'|] eqn:Hp.
        -- rewrite (getUsuarioFromStorage_parsed env w d v') in Hu
             by assumption.
           injection Hu as <- <-.
           rewrite (getLocalData_present env w t ti d v') by assumption.
           cbn [snd logged localStorage token].
           rewrite Ht, Hti, Hd. eauto 10.
        -- rewrite (getUsuarioFromStorage_malformed env w d) in Hu
             by assumption.
           injection Hu as <- _. discriminate Hv.
      * rewrite getUsuarioFromStorage_unfilled in Hu by assumption.
        injection Hu as <- _. discriminate Hv.
    + left. rewrite (getLocalData_absent env w w1 v Hu Hc).
      unfold slots_cleared. cbn [snd usuario persona tipoUsuarioId token
                                  logged localStorage].
      auto 10.
  - left. destruct (verificarToken_total w) as (b & w' & -> & Hobs & _).
    exact Hobs.
  - destruct (checkLogged_world env l w) as [Hobs | Hobs]; auto.
Qed.

(** X14. In every world an instance can reach, the usuario, persona,
    tipoUsuarioId and token slots are null unless [logged] is true: no
    user data outlives a logout, a failed login, a failed load or a
    failed check. *)
Theorem slots_null_unless_logged (w : World) :
  reachable env w -> logged w <> Some true -> slots_null w.
Proof.
  intros Hreach.
  assert (Hinv : logged w = Some true \/ slots_null w).
  { induction Hreach as [storage now | e w _ IH].
    - right. unfold slots_null. auto.
    - destruct e as [c | storage now]; [|exact IH].
      cbn [step]. unfold slots_null in *.
      destruct (exec_shapes c w)
        as [Hobs | [Hobs | [(tok & usr & data & tipo & text & _ & _ & _ & ->) |
                            (_ & [(Hcl & _) | (Hl & _)])]]].
      + apply observable_all in Hobs as (-> & -> & -> & -> & -> & _).
        exact IH.
      + right. apply observable_all in Hobs as (-> & -> & -> & _ & -> & _).
        auto.
      + left. reflexivity.
      + right. destruct Hcl as (? & ? & ? & ? & _). auto.
      + left. exact Hl. }
  intros Hnot. destruct Hinv as [Hl | Hnull]; [contradiction | exact Hnull].
Qed.

(** X15. After [logout], with nothing written from outside, no sequence
    of calls without a [login] brings the session back: [logged] stays
    false, the data slots stay null and the storage stays empty. *)
Theorem stays_logged_out (calls : list call) (w : World) :
  forallb (fun c => negb (is_login c)) calls = true ->
  let w' := run_calls env calls (world_after logout w) in
  logged w' = Some false /\ slots_null w' /\ localStorage w' = ∅.
Proof.
  intros Hcalls. cbv zeta. unfold run_calls, world_after.
  rewrite logout_run. cbn [snd].
  assert (Hinv : forall w0 : World,
             logged w0 = Some false /\ slots_null w0 /\ localStorage w0 = ∅ ->
             logged (run env (List.map Call calls) w0) = Some false /\
             slots_null (run env (List.map Call calls) w0) /\
             localStorage (run env (List.map Call calls) w0) = ∅).
  { induction calls as [|c calls IH]; intros w0 Hq; [exact Hq|].
    cbn [forallb] in Hcalls. apply andb_true_iff in Hcalls as [Hc Hcalls].
    cbn [List.map run fold_left step]. apply (IH Hcalls).
    destruct Hq as (Hl & Hnull & Hsto).
    destruct (exec_shapes c w0)
      as [Hobs | [Hobs | [(tok & usr & data & tipo & text & -> & _) |
                          (_ & [(Hcl & Hst) | (_ & _ & _ & [t Ht] & _)])]]].
    - apply observable_all in Hobs as (E1 & E2 & E3 & E4 & E5 & E6).
      unfold slots_null in *. rewrite E1, E2, E3, E4, E5, E6. auto.
    - apply observable_all in Hobs as (E1 & E2 & E3 & E4 & E5 & E6).
      unfold slots_null. rewrite E1, E2, E3, E4, E5, E6. cbn. auto 10.
    - discriminate Hc.
    - destruct Hcl as (? & ? & ? & ? & ?). unfold slots_null.
      repeat split; try assumption.
      destruct Hst as [-> | ->]; [exact Hsto | reflexivity].
    - unfold stored_token in Ht. rewrite Hsto, lookup_empty in Ht.
      discriminate Ht. }
  apply Hinv. unfold slots_null. cbn. auto 10.
Qed.

(** X16. While nothing is written from outside, memory and storage agree
    on the session: from a new instance, after any sequence of calls, if
    [logged] is true then the token slot holds exactly the stored token,
    and the user-type and user-data entries are in the storage. *)
Theorem token_in_sync
    (storage : gmap string string) (now : Z) (calls : list call) :
  in_sync env (run_calls env calls (initial storage now)).
Proof.
  unfold run_calls.
  assert (Hinv : forall w0 : World,
             in_sync env w0 -> in_sync env (run env (List.map Call calls) w0)).
  { induction calls as [|c calls IH]; intros w0 Hq; [exact Hq|].
    cbn [List.map run fold_left step]. apply IH.
    unfold in_sync in *.
    destruct (exec_shapes c w0)
      as [Hobs | [Hobs | [(tok & usr & data & tipo & text & -> & Hrec & Hpay & _) |
                          (_ & [(Hcl & _) | (_ & Hst & Ht & H1 & H2 & H3)])]]].
    - apply observable_all in Hobs as (_ & _ & _ & E4 & E5 & E6).
      unfold stored_token, stored_tipo, stored_datos in *.
      rewrite E4, E5, E6. exact Hq.
    - apply observable_all in Hobs as (_ & _ & _ & E4 & _).
      rewrite E4. discriminate.
    - intros _.
      destruct (login_persists env tok usr data tipo text w0 Hrec Hpay)
        as (E1 & E2 & E3 & _ & E5 & _).
      cbn [exec]. rewrite E1, E2, E3, E5. eauto.
    - destruct Hcl as (_ & _ & _ & _ & E). rewrite E. discriminate.
    - intros _. unfold stored_token, stored_tipo, stored_datos in *.
      rewrite Hst, Ht. auto. }
  apply Hinv. unfold in_sync. discriminate.
Qed.

(** *** Repeating a call *)

(** [getLocalData] is a function of the storage alone. *)
Lemma getLocalData_storage_only (w1 w2 : World) :
  localStorage w1 = localStorage w2 ->
  result_of (getLocalData env) w1 = result_of (getLocalData env) w2 /\
  observable (world_after (getLocalData env) w1)
    = observable (world_after (getLocalData env) w2).
Proof.
  intros Hs.
  assert (Ht : stored_token env w1 = stored_token env w2)
    by (unfold stored_token; now rewrite Hs).
  assert (Hti : stored_tipo env w1 = stored_tipo env w2)
    by (unfold stored_tipo; now rewrite Hs).
  assert (Hd : stored_datos env w1 = stored_datos env w2)
    by (unfold stored_datos; now rewrite Hs).
  unfold result_of, world_after.
  destruct (filled (stored_datos env w2)) eqn:Hfd.
  - apply filled_Some in Hfd as (d & Hd2 & Hnd).
    assert (Hd1 : stored_datos env w1 = Some d) by congruence.
    destruct (JSON_parse d) as [v|] eqn:Hp.
    + pose proof (getUsuarioFromStorage_parsed env w1 d v Hd1 Hnd Hp) as Hu1.
      pose proof (getUsuarioFromStorage_parsed env w2 d v Hd2 Hnd Hp) as Hu2.
      destruct (filled (stored_token env w2) && filled (stored_tipo env w2)
                && truthy v) eqn:Hc.
      * apply andb_true_iff in Hc as [Hc Hv].
        apply andb_true_iff in Hc as [Hft Hfti].
        apply filled_Some in Hft as (t & Ht2 & Hnt).
        apply filled_Some in Hfti as (ti & Hti2 & Hnti).
        rewrite (getLocalData_present env w1 t ti d v)
          by (congruence || assumption).
        rewrite (getLocalData_present env w2 t ti d v) by assumption.
        unfold observable. cbn. now rewrite Hs.
      * rewrite (getLocalData_absent env w1 w1 v Hu1) by (now rewrite Ht, Hti).
        rewrite (getLocalData_absent env w2 w2 v Hu2 Hc).
        unfold observable. cbn. now rewrite Hs.
    + pose proof (getUsuarioFromStorage_malformed env w1 d Hd1 Hnd Hp) as Hu1.
      pose proof (getUsuarioFromStorage_malformed env w2 d Hd2 Hnd Hp) as Hu2.
      rewrite (getLocalData_absent env w1 _ VNull Hu1) by apply andb_false_r.
      rewrite (getLocalData_absent env w2 _ VNull Hu2) by apply andb_false_r.
      split; reflexivity.
  - assert (Hfd1 : filled (stored_datos env w1) = false) by (now rewrite Hd).
    pose proof (getUsuarioFromStorage_unfilled env w1 Hfd1) as Hu1.
    pose proof (getUsuarioFromStorage_unfilled env w2 Hfd) as Hu2.
    rewrite (getLocalData_absent env w1 w1 VNull Hu1) by apply andb_false_r.
    rewrite (getLocalData_absent env w2 w2 VNull Hu2) by apply andb_false_r.
    unfold observable. cbn. now rewrite Hs.
Qed.

(** X19. [getLocalData] does not look at the slots: called on any
    instance, it returns what it returns on a new instance over the same
    storage, and leaves the same slots and the same storage. *)
Theorem getLocalData_as_on_new_instance (w : World) :
  result_of (getLocalData env) w = result_of (getLocalData env) (remount w) /\
  observable (world_after (getLocalData env) w)
    = observable (world_after (getLocalData env) (remount w)).
Proof. apply getLocalData_storage_only. reflexivity. Qed.

(** The storage after [getLocalData]: as it was, or, when nothing is
    returned, possibly empty. *)
Lemma getLocalData_shape (w : World) :
  exists r w1,
    getLocalData env w = (Normal r, w1) /\
    ((r = None /\ slots_cleared w1 /\
      (localStorage w1 = localStorage w \/ localStorage w1 = ∅)) \/
     (exists t, r = Some t /\ localStorage w1 = localStorage w)).
Proof.
  destruct (getLocalData_total env w) as (r & w1 & Hrun & Hcases).
  exists r, w1. split; [exact Hrun|].
  destruct (exec_shapes GetLocalData w)
    as [Hobs | [Hobs | [(tok & usr & data & tipo & text & [=] & _) |
                        (_ & [(Hcl & Hs) | (Hl & Hs & _)])]]];
    cbn [exec] in *; unfold world_after in *; rewrite Hrun in *;
    cbn [snd] in *.
  - apply observable_all in Hobs as (_ & _ & _ & _ & _ & Hs).
    destruct Hcases as [(-> & Hcl) | (t & -> & _)]; eauto 10.
  - pose proof Hobs as Hobs'.
    apply observable_all in Hobs' as (_ & _ & _ & El & _ & Hs).
    destruct Hcases as [(-> & Hcl) | (t & _ & _ & Hl & _)].
    + left. auto.
    + rewrite El in Hl. discriminate Hl.
  - destruct Hcases as [(-> & _) | (t & _ & _ & Hl & _)].
    + left. auto.
    + destruct Hcl as (_ & _ & _ & _ & E). rewrite E in Hl. discriminate Hl.
  - destruct Hcases as [(_ & Hcl) | (t & -> & _)].
    + destruct Hcl as (_ & _ & _ & _ & E). rewrite E in Hl. discriminate Hl.
    + right. eauto.
Qed.

(** X18. [getLocalData] is idempotent: with nothing written from outside
    in between, a second call returns what the first returned and leaves
    slots and storage as the first left them. *)
Theorem getLocalData_twice (w : World) :
  let w1 := world_after (getLocalData env) w in
  result_of (getLocalData env) w1 = result_of (getLocalData env) w /\
  observable (world_after (getLocalData env) w1) = observable w1.
Proof.
  cbv zeta.
  destruct (getLocalData_shape w) as (r & w1 & Hrun & Hcases).
  assert (Hafter : world_after (getLocalData env) w = w1)
    by (unfold world_after; now rewrite Hrun).
  assert (Hres : result_of (getLocalData env) w = Normal r)
    by (unfold result_of; now rewrite Hrun).
  rewrite Hafter, Hres.
  assert (Hsame : localStorage w1 = localStorage w ->
                  result_of (getLocalData env) w1 = Normal r /\
                  observable (world_after (getLocalData env) w1)
                    = observable w1).
  { intros Hs. destruct (getLocalData_storage_only w1 w Hs) as [Hr Ho].
    now rewrite Hr, Ho, Hres, Hafter. }
  destruct Hcases as [(-> & Hcl & [Hs | Hs]) | (t & -> & Hs)];
    [now apply Hsame | | now apply Hsame].
  destruct Hcl as (E1 & E2 & E3 & E4 & E5).
  unfold result_of, world_after.
  rewrite (getLocalData_absent env w1 w1 VNull).
  - unfold observable. cbn. now rewrite E1, E2, E3, E4, E5.
  - apply getUsuarioFromStorage_unfilled.
    unfold stored_datos. rewrite Hs. cbn. now rewrite lookup_empty.
  - apply andb_false_r.
Qed.

(** X17. A second [login] replaces the first altogether: after two
    logins that both get through their [try] block (token decoded, data
    section and user-type id read, user-type id brought to a string),
    with nothing written from outside in
    between, every slot and every storage entry is what the second login
    alone would have left. *)
Theorem login_twice
    (tok tok' : string) (usr usr' data data' tipo tipo' : value)
    (text text' : string) (w : World) :
  is_record usr = true -> login_payload tok = Some (data, tipo, text) ->
  is_record usr' = true -> login_payload tok' = Some (data', tipo', text') ->
  observable
    (world_after (login env tok usr) (world_after (login env tok' usr') w))
  = observable (world_after (login env tok usr) w).
Proof.
  intros Hrec Hpay Hrec' Hpay'. unfold world_after.
  rewrite (login_ok env tok' usr' data' tipo' text') by assumption.
  rewrite !(login_ok env tok usr data tipo text) by assumption.
  unfold observable, logged_in. cbn [snd usuario persona tipoUsuarioId logged
                                      token localStorage].
  f_equal. apply map_eq. intros k.
  rewrite !lookup_insert. repeat case_decide; reflexivity.
Qed.

(** X20. [login] never looks at the clock, hence never at the expiry of
    the token: whatever the time, it leaves the same slots and the same
    storage. A token that has already expired is accepted like any
    other. *)
Theorem login_ignores_clock
    (tok : string) (usr : value) (w : World) (now' : Z) :
  observable (world_after (login env tok usr) (at_time now' w))
  = observable (world_after (login env tok usr) w).
Proof.
  unfold world_after. destruct (is_record usr) eqn:Hrec.
  - destruct (login_payload tok) as [[[data tipo] text]|] eqn:Hpay.
    + now rewrite !(login_ok env tok usr data tipo text).
    + now rewrite !login_failed.
  - now rewrite !login_rejected.
Qed.

(** X21. [getUser] called without user data (null, undefined or any
    other falsy argument) works from the stored record: when that record
    parses to a truthy value it does what it does when handed that value;
    when there is no stored record it sets usuario and persona to null
    and leaves the storage alone; when the stored record does not parse
    it sets both to null and the whole storage is emptied. The other
    slots are never touched. *)
Theorem getUser_without_argument (p : value) (w : World) :
  truthy p = false ->
  let w' := world_after (getUser env p) w in
  (forall d v,
      stored_datos env w = Some d -> d <> "" -> JSON_parse d = Some v ->
      truthy v = true -> getUser env p w = getUser env v w) /\
  (filled (stored_datos env w) = false ->
   usuario w' = VNull /\ persona w' = VNull /\
   localStorage w' = localStorage w) /\
  (forall d,
      stored_datos env w = Some d -> d <> "" -> JSON_parse d = None ->
      usuario w' = VNull /\ persona w' = VNull /\ localStorage w' = ∅) /\
  tipoUsuarioId w' = tipoUsuarioId w /\ logged w' = logged w /\
  token w' = token w.
Proof.
  intros Hp w'. subst w'. unfold world_after.
  split; [|split; [|split]].
  - intros d v Hd Hne Hv Htr.
    rewrite (getUser_truthy v w Htr).
    unfold getUser. unfold_hook.
    rewrite Hp, (getUsuarioFromStorage_parsed env w d v Hd Hne Hv), !Htr.
    destruct (truthy_get_prop v "persona" Htr) as [x Hx]. rewrite !Hx.
    reflexivity.
  - intros Hf. unfold getUser. unfold_hook.
    rewrite Hp, (getUsuarioFromStorage_unfilled env w Hf). cbn. auto.
  - intros d Hd Hne Hv. unfold getUser. unfold_hook.
    rewrite Hp, (getUsuarioFromStorage_malformed env w d Hd Hne Hv). cbn.
    auto.
  - destruct (getUsuarioFromStorage_total env w)
      as (v & w1 & Hu & _ & _ & E3 & E4 & E5 & _).
    unfold getUser. unfold_hook. rewrite Hp, Hu.
    destruct (truthy v) eqn:Htr.
    + destruct (truthy_get_prop v "persona" Htr) as [x Hx]. rewrite Hx.
      cbn. auto.
    + cbn. auto.
Qed.

(** X22. A user-type id that cannot be brought to a string makes
    [login] fail after it has started writing: when the token decodes,
    the data section and its user-type id can be read, but the string
    conversion that [setItem] applies to the user-type id throws (an
    object with a property named toString), the [catch] block runs
    [logout], and the call returns normally with the storage empty, the
    token written just before included, every slot null and [logged]
    false. *)
Theorem login_unprintable_tipo
    (tok : string) (usr decoded data tipo : value) (error : string)
    (w : World) :
  is_record usr = true ->
  jwtDecode tok = Some decoded ->
  get_prop decoded "data" = Normal data ->
  get_prop data "tipo_usuario_id" = Normal tipo ->
  ToString tipo = Throw error ->
  result_of (login env tok usr) w = Normal tt /\
  observable (world_after (login env tok usr) w)
    = observable (world_after logout w) /\
  localStorage (world_after (login env tok usr) w) = ∅ /\
  logged (world_after (login env tok usr) w) = Some false.
Proof.
  intros Hrec Hdec Hdata Htipo Hthrow.
  assert (Hpay : login_payload tok = None).
  { unfold login_payload. now rewrite Hdec, Hdata, Htipo, Hthrow. }
  unfold result_of, world_after.
  rewrite login_failed by assumption. rewrite logout_run.
  repeat split.
Qed.

End Hook.

(** *** The properties on the concrete host *)

(** A live login on a new instance. *)
Lemma login_establishes_session_witness :
  is_record Demo.ana = true /\
  login_payload (H := Demo.host) "tok.ok"
    = Some (Demo.datos, VNum (Num 2), "2") /\
  stored_token Demo.env Demo.session = Some "tok.ok" /\
  stored_tipo Demo.env Demo.session = Some "2" /\
  stored_datos Demo.env Demo.session = Some Demo.datos_text /\
  logged Demo.session = Some true.
Proof.
  split; [reflexivity|]. split; [reflexivity|].
  destruct (login_establishes_session (H := Demo.host) Demo.env "tok.ok"
              Demo.ana Demo.datos (VNum (Num 2)) "2" Demo.fresh
              eq_refl eq_refl)
    as (_ & Ht & _ & Hti & Hd & Hl & _).
  split; [exact Ht|]. split; [exact Hti|]. split; [exact Hd | exact Hl].
Defined.

(** A live login over a storage that holds an entry of another
    application. *)
Lemma login_keeps_other_keys_witness :
  ~ session_key Demo.env "other_token" /\
  is_Some (login_payload (H := Demo.host) "tok.ok") /\
  localStorage
    (world_after (login (H := Demo.host) Demo.env "tok.ok" Demo.ana)
       Demo.shared) !! "other_token" = Some "x".
Proof.
  assert (Hk : ~ session_key Demo.env "other_token").
  { intros [E | [E | E]]; vm_compute in E; discriminate E. }
  assert (Hp : is_Some (login_payload (H := Demo.host) "tok.ok")).
  { exists (Demo.datos, VNum (Num 2), "2"). reflexivity. }
  split; [exact Hk|]. split; [exact Hp|].
  rewrite (login_keeps_other_keys (H := Demo.host) Demo.env "tok.ok" Demo.ana
             Demo.shared "other_token" Hk (or_intror Hp)).
  reflexivity.
Defined.

(** The user data of the live token has a [persona] property. *)
Lemma login_splits_persona_witness :
  persona Demo.session = VObj [("dni", VStr "1")] /\
  get_prop (usuario Demo.session) "persona" = Normal VUndefined /\
  get_prop (usuario Demo.session) "nombre" = Normal (VStr "Ana").
Proof.
  destruct (login_splits_persona (H := Demo.host) Demo.env "tok.ok" Demo.ana
              Demo.datos (VNum (Num 2)) "2"
              [("tipo_usuario_id", VNum (Num 2)); ("nombre", VStr "Ana");
               ("persona", VObj [("dni", VStr "1")])]
              Demo.fresh eq_refl eq_refl eq_refl)
    as (Hp & Hnone & Hother).
  split; [exact Hp|]. split; [exact Hnone|].
  assert (Hne : "nombre" <> "persona") by discriminate.
  exact (Hother "nombre" Hne).
Defined.

(** The user-type id 2 of the live token. *)
Lemma login_tipo_slot_witness :
  stored_tipo Demo.env Demo.session = Some "2" /\
  ToString (H := Demo.host) (tipoUsuarioId Demo.session) = Normal "2" /\
  tipoUsuarioId Demo.session = VNum (Num 2).
Proof.
  destruct (login_tipo_slot (H := Demo.host) Demo.env "tok.ok" Demo.ana
              Demo.datos (VNum (Num 2)) "2" Demo.fresh eq_refl eq_refl)
    as (_ & Hs & Hslot & Htruthy & _).
  split; [exact Hs|]. split; [exact Hslot | exact (Htruthy eq_refl)].
Defined.


(** The stored token overwritten by a string that is no token. *)
Lemma checkLogged_never_decodes_stored_token_witness :
  stored_token Demo.env Demo.tampered = Some "garbage" /\
  jwtDecode (Host := Demo.host) "garbage" = None /\
  result_of (checkLogged (H := Demo.host) Demo.env [Num 2]) Demo.tampered
    = Normal true.
Proof.
  split; [reflexivity|]. split; [reflexivity|].
  rewrite <- (eq_refl : result_of (checkLogged (H := Demo.host) Demo.env
                                    [Num 2]) Demo.session = Normal true).
  apply (checkLogged_never_decodes_stored_token (H := Demo.host) Demo.env
           [Num 2] Demo.session
           (<["app_token" := "garbage"]> (localStorage Demo.session)));
    reflexivity.
Defined.

(** The live login followed by role checks. *)
Lemma login_then_checkLogged_witness :
  result_of (checkLogged (H := Demo.host) Demo.env [Num 1; Num 2])
    Demo.session = Normal true /\
  result_of (checkLogged (H := Demo.host) Demo.env [Num 3]) Demo.session
    = Normal false /\
  result_of (checkLogged (H := Demo.host) Demo.env []) Demo.session
    = Normal true.
Proof.
  assert (Hgen : forall l,
             result_of (checkLogged (H := Demo.host) Demo.env l) Demo.session
             = Normal (if (0 <? length l)%nat then includes l (Num 2)
                       else true)).
  { intros l.
    apply (login_then_checkLogged (H := Demo.host) Demo.env "tok.ok" Demo.ana
             Demo.claims_ok Demo.datos 2 2000000000 l Demo.fresh);
      first [reflexivity | discriminate | vm_compute; discriminate]. }
  split; [apply (Hgen [Num 1; Num 2])|].
  split; [apply (Hgen [Num 3]) | apply (Hgen [])].
Defined.


(** The live token, valid one millisecond after its expiry would mean
    valid now. *)
Lemma verificarToken_monotone_witness :
  clock Demo.session <= 2000000000000 /\
  result_of (verificarToken (H := Demo.host))
    (at_time 2000000000000 Demo.session) = Normal true /\
  result_of (verificarToken (H := Demo.host)) Demo.session = Normal true.
Proof.
  split; [vm_compute; discriminate|]. split; [reflexivity|].
  apply (verificarToken_monotone (H := Demo.host) Demo.session 2000000000000);
    [vm_compute; discriminate | reflexivity].
Defined.

(** The logged-in instance read one millisecond after the expiry. *)
Lemma checkLogged_expired_witness :
  2000000000 * 1000 < clock Demo.late /\
  result_of (checkLogged (H := Demo.host) Demo.env []) Demo.late
    = Normal false /\
  observable (world_after (checkLogged (H := Demo.host) Demo.env [])
                Demo.late) = (VNull, VNull, VNull, Some false, None, ∅).
Proof.
  split; [reflexivity|].
  apply (checkLogged_expired (H := Demo.host) Demo.env [] Demo.late "tok.ok"
           Demo.claims_ok 2000000000);
    first [reflexivity | discriminate].
Defined.

(** A logged-in instance after [logout]. *)
Lemma slots_null_unless_logged_witness :
  reachable (H := Demo.host) Demo.env
    (step (H := Demo.host) Demo.env (Call Logout) Demo.session) /\
  logged (step (H := Demo.host) Demo.env (Call Logout) Demo.session)
    <> Some true /\
  slots_null (step (H := Demo.host) Demo.env (Call Logout) Demo.session).
Proof.
  assert (Hreach : reachable (H := Demo.host) Demo.env
                     (step (H := Demo.host) Demo.env (Call Logout)
                        Demo.session)).
  { apply reachable_step.
    exact (reachable_step (H := Demo.host) Demo.env
             (Call (Login "tok.ok" Demo.ana)) Demo.fresh
             (reachable_initial (H := Demo.host) Demo.env ∅ Demo.now)). }
  split; [exact Hreach|]. split; [discriminate|].
  apply (slots_null_unless_logged (H := Demo.host) Demo.env _ Hreach).
  discriminate.
Defined.

(** After [logout], loading and checking do not bring the session back. *)
Lemma stays_logged_out_witness :
  logged (run_calls (H := Demo.host) Demo.env
            [GetLocalData; CheckLogged [Num 2]; VerificarToken; Logout;
             GetLocalData]
            (world_after logout Demo.session)) = Some false.
Proof.
  apply (stays_logged_out (H := Demo.host) Demo.env
           [GetLocalData; CheckLogged [Num 2]; VerificarToken; Logout;
            GetLocalData]
           Demo.session).
  reflexivity.
Defined.

(** A login, a check and a load in a row. *)
Lemma token_in_sync_witness :
  let w := run_calls (H := Demo.host) Demo.env
             [Login "tok.ok" Demo.ana; CheckLogged [Num 2]; GetLocalData]
             (initial ∅ Demo.now) in
  logged w = Some true /\
  stored_token Demo.env w = token w /\ token w = Some "tok.ok".
Proof.
  intros w. assert (Hl : logged w = Some true) by reflexivity.
  split; [exact Hl|].
  destruct (token_in_sync (H := Demo.host) Demo.env ∅ Demo.now
              [Login "tok.ok" Demo.ana; CheckLogged [Num 2]; GetLocalData]
              Hl) as (Hsync & _).
  split; [exact Hsync | reflexivity].
Defined.

(** The expired token first, the live one second. *)
Lemma login_twice_witness :
  observable
    (world_after (login (H := Demo.host) Demo.env "tok.ok" Demo.ana)
       (world_after (login (H := Demo.host) Demo.env "tok.old" (VObj []))
          Demo.shared))
  = observable
      (world_after (login (H := Demo.host) Demo.env "tok.ok" Demo.ana)
         Demo.shared).
Proof.
  apply (login_twice (H := Demo.host) Demo.env "tok.ok" "tok.old" Demo.ana
           (VObj []) Demo.datos Demo.datos (VNum (Num 2)) (VNum (Num 2))
           "2" "2" Demo.shared); reflexivity.
Defined.

(** [getUser()] over the storage of the live session. *)
Lemma getUser_without_argument_witness :
  truthy VNull = false /\
  stored_datos Demo.env (remount Demo.session) = Some Demo.datos_text /\
  usuario (world_after (getUser (H := Demo.host) Demo.env VNull)
             (remount Demo.session)) = usuario Demo.session /\
  persona (world_after (getUser (H := Demo.host) Demo.env VNull) Demo.fresh)
    = VNull.
Proof.
  split; [reflexivity|]. split; [reflexivity|].
  destruct (getUser_without_argument (H := Demo.host) Demo.env VNull
              (remount Demo.session) eq_refl) as (Hstored & _).
  destruct (getUser_without_argument (H := Demo.host) Demo.env VNull
              Demo.fresh eq_refl) as (_ & Hnone & _).
  split.
  - unfold world_after.
    rewrite (Hstored Demo.datos_text Demo.datos);
      first [reflexivity | vm_compute; discriminate].
  - exact (proj1 (proj2 (Hnone eq_refl))).
Defined.

(** The token whose user-type id is [{"toString":1}], on an instance
    over a storage with an entry of another application. *)
Lemma login_unprintable_tipo_witness :
  ToString (H := Demo.host) (VObj [("toString", VNum (Num 1))])
    = Throw "TypeError" /\
  localStorage
    (world_after (login (H := Demo.host) Demo.env "tok.unprintable" Demo.ana)
       Demo.shared) = ∅ /\
  logged
    (world_after (login (H := Demo.host) Demo.env "tok.unprintable" Demo.ana)
       Demo.shared) = Some false.
Proof.
  split; [reflexivity|].
  destruct (login_unprintable_tipo (H := Demo.host) Demo.env "tok.unprintable"
              Demo.ana Demo.claims_unprintable
              (VObj [("tipo_usuario_id", VObj [("toString", VNum (Num 1))]);
                     ("nombre", VStr "Ana")])
              (VObj [("toString", VNum (Num 1))]) "TypeError" Demo.shared
              eq_refl eq_refl eq_refl eq_refl eq_refl)
    as (_ & _ & Hsto & Hl).
  split; [exact Hsto | exact Hl].
Defined.

End UseUserMore.
